(** * JWT middleware for go-json-rest: a shallow embedding of auth_jwt.go

    The development follows the Go file top to bottom: the Go values the
    handlers manipulate (strings, instants, claim values), the objects they
    share by reference (the middleware struct, the response writer, the
    request), a small monad for the handlers' effects (state, panic, process
    exit), the handlers themselves, and then the properties of the token
    life cycle. *)

From Stdlib Require Import ZArith String Ascii List Lia Bool.
From Stdlib Require Import Floats.SpecFloat.
From stdpp Require Import base option gmap strings.

Local Open Scope Z_scope.

(** ** Go values *)

(** *** Strings: the part of package [strings] the middleware calls *)

Module strings.

Fixpoint drop (n : nat) (s : string) : string :=
  match n, s with
  | O, _ => s
  | S _, EmptyString => EmptyString
  | S k, String _ s' => drop k s'
  end.

(** The text before and after the first occurrence of [sep] in [s]
    ([strings.Index] followed by the two slicings of [genSplit]). *)
Fixpoint Cut (s sep : string) : option (string * string) :=
  if String.prefix sep s then Some (EmptyString, drop (String.length sep) s)
  else match s with
       | EmptyString => None
       | String c s' =>
           match Cut s' sep with
           | Some (before, after) => Some (String c before, after)
           | None => None
           end
       end.

(** The loop of [genSplit]: at most [cuts] cuts, the rest is kept whole. *)
Fixpoint genSplit (cuts : nat) (s sep : string) : list string :=
  match cuts with
  | O => [s]
  | S k =>
      match Cut s sep with
      | None => [s]
      | Some (before, after) => before :: genSplit k after sep
      end
  end.

(** [strings.SplitN s sep n] for a non-empty separator: [n = 0] gives no
    substring, [n > 0] at most [n] of them with the unsplit remainder
    last, [n < 0] all of them.  (The empty separator, which splits into
    characters, is not called by the middleware.) *)
Definition SplitN (s sep : string) (n : Z) : list string :=
  if n =? 0 then []
  else if n <? 0 then genSplit (String.length s) s sep
  else genSplit (Z.to_nat (n - 1)) s sep.


(** [strings.Join(elems, sep)] *)
Fixpoint Join (elems : list string) (sep : string) : string :=
  match elems with
  | [] => EmptyString
  | [e] => e
  | e :: rest => String.append e (String.append sep (Join rest sep))
  end.

End strings.

(** *** UTF-8: the part of package [unicode/utf8] that [encoding/json]
    relies on.  A Go string is a sequence of bytes, and so is a [string]
    here. *)

Module utf8.

(** The byte [c] lies between [lo] and [hi]. *)
Definition between (lo hi : N) (c : ascii) : bool :=
  ((lo <=? N_of_ascii c) && (N_of_ascii c <=? hi))%N.

(** A continuation byte. *)
Definition continues (c : ascii) : bool := between 0x80 0xBF c.

(** The size that [utf8.DecodeRuneInString] reports for a non-empty [s]:
    the number of bytes of the encoding that [s] starts with.  [None]
    stands for the answer [(RuneError, 1)], given when [s] starts with no
    valid encoding: a stray continuation byte, an overlong form, a
    surrogate, a value above U+10FFFF, or a sequence cut short. *)
Definition DecodeRuneInString (s : string) : option nat :=
  match s with
  | EmptyString => None
  | String c0 rest =>
      if between 0x00 0x7F c0 then Some 1%nat
      else if between 0xC2 0xDF c0 then
        match rest with
        | String c1 _ => if continues c1 then Some 2%nat else None
        | _ => None
        end
      else if between 0xE0 0xEF c0 then
        match rest with
        | String c1 (String c2 _) =>
            let lo := if between 0xE0 0xE0 c0 then 0xA0%N else 0x80%N in
            let hi := if between 0xED 0xED c0 then 0x9F%N else 0xBF%N in
            if between lo hi c1 && continues c2 then Some 3%nat else None
        | _ => None
        end
      else if between 0xF0 0xF4 c0 then
        match rest with
        | String c1 (String c2 (String c3 _)) =>
            let lo := if between 0xF0 0xF0 c0 then 0x90%N else 0x80%N in
            let hi := if between 0xF4 0xF4 c0 then 0x8F%N else 0xBF%N in
            if between lo hi c1 && continues c2 && continues c3 then Some 4%nat else None
        | _ => None
        end
      else None
  end.

(** The loop of [utf8.ValidString]; [pending] counts the bytes still to
    pass of an encoding that was accepted at its first byte. *)
Fixpoint valid_from (pending : nat) (s : string) : bool :=
  match s with
  | EmptyString => true
  | String _ rest =>
      match pending with
      | S k => valid_from k rest
      | O =>
          match DecodeRuneInString s with
          | Some (S k) => valid_from k rest
          | _ => false
          end
      end
  end.

Definition ValidString (s : string) : bool := valid_from 0 s.

(** The encoding of U+FFFD, the replacement character. *)
Definition RuneError : string :=
  String (ascii_of_N 0xEF) (String (ascii_of_N 0xBF) (String (ascii_of_N 0xBD) EmptyString)).

End utf8.

(** *** Integers and instants *)

Definition int64_min : Z := - 2 ^ 63.
Definition int64_max : Z := 2 ^ 63 - 1.

(** Two's complement wrap-around of the Go [int64] operations. *)
Definition wrap_int64 (z : Z) : Z := (z + 2 ^ 63) mod 2 ^ 64 - 2 ^ 63.

Module time.

(** [time.Duration] is an [int64] count of nanoseconds. *)
Definition Duration := Z.

Definition Second : Duration := 1000000000.
Definition Hour : Duration := 3600 * Second.

(** Unary minus on a [Duration] ([-mw.MaxRefresh]). *)
Definition neg (d : Duration) : Duration := wrap_int64 (- d).

(** A [time.Time] wall-clock instant, as nanoseconds since the Unix
    epoch.  Instants stay far from the ends of the representable range,
    where [Add] would saturate. *)
Definition Time := Z.

Definition Add (t : Time) (d : Duration) : Time := t + d.

(** [t.Unix()]: whole seconds since the epoch, rounded down. *)
Definition Unix (t : Time) : Z := t / Second.

End time.

(** *** float64, as far as the claims of a token need it *)

(** JSON numbers decode to [float64]; IEEE-754 binary64 values are the
    [spec_float]s of precision 53 and maximal exponent 1024. *)
Definition float64 := spec_float.

(** The Go conversion [int64(f)]: the fraction is discarded (truncation
    towards zero).  Outside the range of [int64], and for NaN, Go leaves the
    result to the implementation; amd64 yields the least [int64]. *)
Definition int64_of_float64 (f : float64) : Z :=
  match f with
  | S754_zero _ => 0
  | S754_finite s m e =>
      let magnitude := if 0 <=? e then Z.pos m * 2 ^ e else Z.pos m / 2 ^ (- e) in
      let z := if s then - magnitude else magnitude in
      if (int64_min <=? z) && (z <=? int64_max) then z else int64_min
  | S754_infinity _ | S754_nan => int64_min
  end.

(** The [float64] nearest to an integer (ties to even): what decoding the
    decimal rendering of an [int64] yields. *)
Definition float64_of_int64 (z : Z) : float64 := binary_normalize 53 1024 z 0 false.

(** *** Dynamically typed values ([interface{}]) *)

#[warnings="-register-all"]
Inductive Value :=
| VNil
| VBool (b : bool)
| VString (s : string)
| VInt64 (n : Z)
| VFloat64 (f : float64)
| VArray (l : list Value)
| VObject (l : list (string * Value)).

(** [map[string]interface{}]: the claims of a token and the request
    environment. *)
Abbreviation MapClaims := (gmap string Value).

(** [m[k]]: indexing a Go map yields the zero value, a nil interface, for a
    missing key. *)
Definition index (m : gmap string Value) (k : string) : Value :=
  default VNil (m !! k).

(** A string after a trip through [encoding/json].  The encoder writes
    [\ufffd] for every byte at which [utf8.DecodeRuneInString] answers
    [(RuneError, 1)] and moves on by one byte; the decoder reads the escape
    as U+FFFD.  The encodings that are valid come back byte for byte (the
    escapes the encoder uses for them are undone by the decoder). *)
Fixpoint json_string_from (pending : nat) (s : string) : string :=
  match s with
  | EmptyString => EmptyString
  | String c rest =>
      match pending with
      | S k => String c (json_string_from k rest)
      | O =>
          match utf8.DecodeRuneInString s with
          | Some (S k) => String c (json_string_from k rest)
          | _ => String.append utf8.RuneError (json_string_from 0 rest)
          end
      end
  end.

Definition json_string (s : string) : string := json_string_from 0 s.

(** The bytes of a string, and a string from its bytes. *)
Definition bytes_of_string (s : string) : list N :=
  map N_of_ascii (list_ascii_of_string s).

Definition string_of_bytes (l : list N) : string :=
  string_of_list_ascii (map ascii_of_N l).

(** A value after a trip through [encoding/json] into an [interface{}]:
    integers come back as [float64], strings and the names of an object's
    members as [json_string] leaves them, [nil], booleans and [float64]s
    as they were. *)
Fixpoint json_roundtrip (v : Value) : Value :=
  match v with
  | VString s => VString (json_string s)
  | VInt64 n => VFloat64 (float64_of_int64 n)
  | VArray l => VArray (map json_roundtrip l)
  | VObject l =>
      VObject (map (fun kv => let '(k, x) := kv in (json_string k, json_roundtrip x)) l)
  | _ => v
  end.

(** The values whose trip through [encoding/json] the handlers depend on:
    the ones that hold no further values. *)
Definition json_flat (v : Value) : bool :=
  match v with
  | VNil | VBool _ | VString _ | VInt64 _ => true
  | _ => false
  end.

(** Claims that [encoding/json] carries member by member: every name is
    valid UTF-8, so that no two names fall together, and every value is
    flat. *)
Definition json_plain (claims : MapClaims) : Prop :=
  forall k v, claims !! k = Some v -> utf8.ValidString k = true /\ json_flat v = true.

(** Go errors, by their message. *)
Definition error := string.

Definition errors_New (msg : string) : error := msg.

(** A Go result pair [(value, err)]; the callers here look at the value
    only when [err] is nil. *)
Inductive result (A : Type) :=
| OK (a : A)
| Err (e : error).
Arguments OK {A} a.
Arguments Err {A} e.

(** ** The objects a handler works on *)

(** *** rest.ResponseWriter *)

(** The writer is an interface of the framework: it is kept as the sequence
    of calls made on it, oldest first.  [rest.Error] is the framework's
    helper that answers with a status code and a JSON error body. *)
Inductive WriterCall :=
| Header_Set (key value : string)
| WriteJson (v : gmap string string)
| rest_Error (msg : string) (code : Z).

Abbreviation ResponseWriter := (list WriterCall).

Definition http_StatusUnauthorized : Z := 401.

(** *** rest.Request *)

Record Request := mkRequest {
  Header : gmap string (list string);   (* http.Header *)
  Body : string;                        (* the payload DecodeJsonPayload reads *)
  Env : gmap string Value;              (* allocated by the framework, never nil *)
}.

(** [h.Get(key)]: the first value stored under [key], or the empty string. *)
Definition Header_Get (h : gmap string (list string)) (key : string) : string :=
  match h !! key with
  | Some (v :: _) => v
  | _ => ""
  end.

Definition set_Env (k : string) (v : Value) (r : Request) : Request :=
  {| Header := Header r; Body := Body r; Env := <[k := v]> (Env r) |}.

(** *** JWTMiddleware *)

(** A nil slice and a nil func are [None].  The two callbacks are the
    application's; they are taken to decide without changing what the
    middleware works on. *)
Record JWTMiddleware := mkJWTMiddleware {
  Realm : string;
  SigningAlgorithm : string;
  Key : option (list Byte.byte);
  Timeout : time.Duration;
  MaxRefresh : time.Duration;
  Authenticator : option (string -> string -> bool);
  Authorizator : option (string -> Request -> bool);
  NeedPrompt : bool;
}.

Definition set_SigningAlgorithm (a : string) (mw : JWTMiddleware) : JWTMiddleware :=
  {| Realm := Realm mw; SigningAlgorithm := a; Key := Key mw; Timeout := Timeout mw;
     MaxRefresh := MaxRefresh mw; Authenticator := Authenticator mw;
     Authorizator := Authorizator mw; NeedPrompt := NeedPrompt mw |}.

Definition set_Timeout (d : time.Duration) (mw : JWTMiddleware) : JWTMiddleware :=
  {| Realm := Realm mw; SigningAlgorithm := SigningAlgorithm mw; Key := Key mw; Timeout := d;
     MaxRefresh := MaxRefresh mw; Authenticator := Authenticator mw;
     Authorizator := Authorizator mw; NeedPrompt := NeedPrompt mw |}.

Definition set_Authorizator (f : string -> Request -> bool) (mw : JWTMiddleware) : JWTMiddleware :=
  {| Realm := Realm mw; SigningAlgorithm := SigningAlgorithm mw; Key := Key mw;
     Timeout := Timeout mw; MaxRefresh := MaxRefresh mw; Authenticator := Authenticator mw;
     Authorizator := Some f; NeedPrompt := NeedPrompt mw |}.

(** The json struct [login]. *)
Record login := mkLogin {
  Username : string;
  Password : string;
}.

(** ** The store and the handler monad *)

(** Calls that leave the middleware, in the order they are made. *)
Inductive Event :=
| Call_jwt_Parse (tokenString : string)
| Call_SignedString (claims : MapClaims)
| Call_Authenticator (userId password : string)
| Call_Authorizator (userId : string)
| Call_handler.

(** What the receiver [mw], the [writer] and the [request] of the Go
    methods refer to, the wall clock ([clock n] is the [n]-th reading since
    the start) and the calls made so far. *)
Record Store := mkStore {
  receiver : JWTMiddleware;
  writer : ResponseWriter;
  request : Request;
  clock : nat -> time.Time;
  reads : nat;
  trace : list Event;
}.

(** A run returns, panics, or ends the process ([log.Fatal]). *)
Inductive Outcome (A : Type) :=
| Return (a : A) (s : Store)
| Panic (msg : string) (s : Store)
| Fatal (msg : string) (s : Store).
Arguments Return {A} a s.
Arguments Panic {A} msg s.
Arguments Fatal {A} msg s.

Definition M (A : Type) := Store -> Outcome A.

Definition ret {A} (a : A) : M A := fun s => Return a s.

Definition bind {A B} (m : M A) (k : A -> M B) : M B :=
  fun s =>
    match m s with
    | Return a s' => k a s'
    | Panic msg s' => Panic msg s'
    | Fatal msg s' => Fatal msg s'
    end.

Notation "'let*' x ':=' m 'in' k" := (bind m (fun x => k))
  (at level 10, x name, m at level 100, k at level 200).
Notation "m ';;' k" := (bind m (fun _ => k))
  (at level 100, k at level 200, right associativity, only parsing).

Definition panic {A} (msg : string) : M A := fun s => Panic msg s.

(** [log.Fatal]: the message is logged and the process exits. *)
Definition log_Fatal {A} (msg : string) : M A := fun s => Fatal msg s.

(** The store in which a run ends, however it ends. *)
Definition final {A} (o : Outcome A) : Store :=
  match o with
  | Return _ s | Panic _ s | Fatal _ s => s
  end.

(** [mw.F]: reading a field through the receiver. *)
Definition mw_field {A} (F : JWTMiddleware -> A) : M A := fun s => Return (F (receiver s)) s.

Definition update_mw (f : JWTMiddleware -> JWTMiddleware) : M unit :=
  fun s => Return tt {| receiver := f (receiver s); writer := writer s; request := request s;
                        clock := clock s; reads := reads s; trace := trace s |}.

Definition get_request : M Request := fun s => Return (request s) s.

(** [request.Header.Get(key)] *)
Definition request_Header_Get (key : string) : M string :=
  fun s => Return (Header_Get (Header (request s)) key) s.

Definition update_request (f : Request -> Request) : M unit :=
  fun s => Return tt {| receiver := receiver s; writer := writer s; request := f (request s);
                        clock := clock s; reads := reads s; trace := trace s |}.

Definition call_writer (c : WriterCall) : M unit :=
  fun s => Return tt {| receiver := receiver s; writer := writer s ++ [c]; request := request s;
                        clock := clock s; reads := reads s; trace := trace s |}.

Definition emit (e : Event) : M unit :=
  fun s => Return tt {| receiver := receiver s; writer := writer s; request := request s;
                        clock := clock s; reads := reads s; trace := trace s ++ [e] |}.

(** [time.Now()]: the next reading of the clock. *)
Definition time_Now : M time.Time :=
  fun s => Return (clock s (reads s))
             {| receiver := receiver s; writer := writer s; request := request s;
                clock := clock s; reads := S (reads s); trace := trace s |}.

(** [x == nil] on a slice or a func. *)
Definition is_nil {A} (x : option A) : bool :=
  match x with
  | None => true
  | Some _ => false
  end.

Definition when (b : bool) (m : M unit) : M unit := if b then m else ret tt.

(** The unchecked type assertions [v.(string)] and [v.(float64)]: they
    panic on a value of any other dynamic type, nil included. *)
Definition assert_string (v : Value) : M string :=
  match v with
  | VString s => ret s
  | _ => panic "interface conversion: interface {} is not string"
  end.

Definition assert_float64 (v : Value) : M float64 :=
  match v with
  | VFloat64 f => ret f
  | _ => panic "interface conversion: interface {} is not float64"
  end.

(** ** The middleware *)

Section Middleware.

(** *** Collaborators outside the repository *)

(** Package jwt: the registered signing methods ([GetSigningMethod]
    returns nil for an unknown name), the signer behind [SignedString] and
    the verifier behind [Parse], which checks the token against the key
    and against the instant it reads from the clock. *)
Variable SigningMethod : Type.
Variable jwt_GetSigningMethod : string -> option SigningMethod.
Variable jwt_sign : SigningMethod -> MapClaims -> option (list Byte.byte) -> result string.

Record Token := mkToken {
  Method : SigningMethod;
  Claims : MapClaims;
}.

Variable jwt_verify : string -> option (list Byte.byte) -> time.Time -> result Token.

(** The JSON decoder behind [request.DecodeJsonPayload(&login_vals)]. *)
Variable json_decode_login : string -> result login.

(** [jwt.New(method)] reads [method.Alg()] for the header: a nil method
    panics. *)
Definition jwt_New (method : option SigningMethod) : M Token :=
  match method with
  | None => panic "invalid memory address or nil pointer dereference"
  | Some m => ret {| Method := m; Claims := ∅ |}
  end.

(** [token.Claims[k] = v] *)
Definition set_claim (k : string) (v : Value) (t : Token) : Token :=
  {| Method := Method t; Claims := <[k := v]> (Claims t) |}.

Definition SignedString (t : Token) (key : option (list Byte.byte)) : M (result string) :=
  emit (Call_SignedString (Claims t));;
  ret (jwt_sign (Method t) (Claims t) key).

(** [jwt.Parse(tokenString, keyFunc)] with the constant [keyFunc] of
    [parseToken]. *)
Definition jwt_Parse (tokenString : string) (key : option (list Byte.byte)) : M (result Token) :=
  emit (Call_jwt_Parse tokenString);;
  let* now := time_Now in
  ret (jwt_verify tokenString key now).

Definition DecodeJsonPayload : M (result login) :=
  fun s => Return (json_decode_login (Body (request s))) s.

(** Calling a func field; a nil func panics. *)
Definition call_Authenticator (userId password : string) : M bool :=
  let* f := mw_field Authenticator in
  match f with
  | None => panic "invalid memory address or nil pointer dereference"
  | Some authenticator =>
      emit (Call_Authenticator userId password);;
      ret (authenticator userId password)
  end.

Definition call_Authorizator (userId : string) : M bool :=
  let* f := mw_field Authorizator in
  match f with
  | None => panic "invalid memory address or nil pointer dereference"
  | Some authorizator =>
      emit (Call_Authorizator userId);;
      let* request := get_request in
      ret (authorizator userId request)
  end.

(** *** auth_jwt.go *)

Definition unauthorized : M unit :=
  let* needPrompt := mw_field NeedPrompt in
  if needPrompt then
    let* realm := mw_field Realm in
    call_writer (Header_Set "WWW-Authenticate" ("Basic realm=" +:+ realm));;
    call_writer (rest_Error "Not Authorized" http_StatusUnauthorized)
  else
    call_writer (WriteJson {["Error" := "Not Authorized"]}).

Definition parseToken (key : option (list Byte.byte)) : M (result Token) :=
  let* authHeader := request_Header_Get "Authorization" in
  if String.eqb authHeader "" then ret (Err (errors_New "Auth header empty"))
  else
    let parts := strings.SplitN authHeader " " 2 in
    if negb (Nat.eqb (length parts) 2 && String.eqb (nth 0 parts "") "Bearer") then
      ret (Err (errors_New "Invalid auth header"))
    else
      jwt_Parse (nth 1 parts "") key.

Definition middlewareImpl (handler : M unit) : M unit :=
  let* key := mw_field Key in
  let* r := parseToken key in
  match r with
  | Err _ => unauthorized
  | OK token =>
      let* id := assert_string (index (Claims token) "id") in
      let* allowed := call_Authorizator id in
      if negb allowed then unauthorized
      else
        update_request (set_Env "REMOTE_USER" (VString id));;
        emit Call_handler;;
        handler
  end.

Definition MiddlewareFunc (handler : M unit) : M (M unit) :=
  let* realm := mw_field Realm in
  when (String.eqb realm "") (log_Fatal "Realm is required");;
  let* alg := mw_field SigningAlgorithm in
  when (String.eqb alg "") (update_mw (set_SigningAlgorithm "HS256"));;
  let* key := mw_field Key in
  when (is_nil key) (log_Fatal "Key required");;
  let* timeout := mw_field Timeout in
  when (timeout =? 0) (update_mw (set_Timeout time.Hour));;
  let* authenticator := mw_field Authenticator in
  when (is_nil authenticator) (log_Fatal "Authenticator is required");;
  let* authorizator := mw_field Authorizator in
  when (is_nil authorizator) (update_mw (set_Authorizator (fun _ _ => true)));;
  ret (middlewareImpl handler).

Definition LoginHandler : M unit :=
  let* r := DecodeJsonPayload in
  match r with
  | Err _ => unauthorized
  | OK login_vals =>
      let* ok := call_Authenticator (Username login_vals) (Password login_vals) in
      if negb ok then unauthorized
      else
        let* alg := mw_field SigningAlgorithm in
        let* token := jwt_New (jwt_GetSigningMethod alg) in
        let token := set_claim "id" (VString (Username login_vals)) token in
        let* now := time_Now in
        let* timeout := mw_field Timeout in
        let token := set_claim "exp" (VInt64 (time.Unix (time.Add now timeout))) token in
        let* maxRefresh := mw_field MaxRefresh in
        let* token :=
          (if negb (maxRefresh =? 0) then
             let* now := time_Now in
             ret (set_claim "orig_iat" (VInt64 (time.Unix now)) token)
           else ret token) in
        let* key := mw_field Key in
        let* r := SignedString token key in
        match r with
        | Err _ => unauthorized
        | OK tokenString => call_writer (WriteJson {["token" := tokenString]})
        end
  end.

Definition RefreshHandler : M unit :=
  let* key := mw_field Key in
  let* r := parseToken key in
  match r with
  | Err _ => unauthorized
  | OK token =>
      let* f := assert_float64 (index (Claims token) "orig_iat") in
      let origIat := int64_of_float64 f in
      let* now := time_Now in
      let* maxRefresh := mw_field MaxRefresh in
      if origIat <? time.Unix (time.Add now (time.neg maxRefresh)) then unauthorized
      else
        let* alg := mw_field SigningAlgorithm in
        let* newToken := jwt_New (jwt_GetSigningMethod alg) in
        let newToken := set_claim "id" (index (Claims token) "id") newToken in
        let* now := time_Now in
        let* timeout := mw_field Timeout in
        let newToken := set_claim "exp" (VInt64 (time.Unix (time.Add now timeout))) newToken in
        let newToken := set_claim "orig_iat" (VInt64 origIat) newToken in
        let* key := mw_field Key in
        let* r := SignedString newToken key in
        match r with
        | Err _ => unauthorized
        | OK tokenString => call_writer (WriteJson {["token" := tokenString]})
        end
  end.

End Middleware.

Arguments Method {SigningMethod} t.
Arguments Claims {SigningMethod} t.
Arguments mkToken {SigningMethod} Method Claims.
Arguments jwt_New {SigningMethod} method s.
Arguments set_claim {SigningMethod} k v t.
Arguments SignedString {SigningMethod} jwt_sign t key s.
Arguments jwt_Parse {SigningMethod} jwt_verify tokenString key s.
Arguments parseToken {SigningMethod} jwt_verify key s.
Arguments middlewareImpl {SigningMethod} jwt_verify handler s.
Arguments MiddlewareFunc {SigningMethod} jwt_verify handler s.
Arguments LoginHandler {SigningMethod} jwt_GetSigningMethod jwt_sign json_decode_login s.
Arguments RefreshHandler {SigningMethod} jwt_GetSigningMethod jwt_sign jwt_verify s.

(** ** Vocabulary for the properties *)

(** The value of the Authorization header of the request. *)
Definition authHeader (s : Store) : string :=
  Header_Get (Header (request s)) "Authorization".

(** [s] after [n] more clock readings and the calls [evs]. *)
Definition advance (n : nat) (evs : list Event) (s : Store) : Store :=
  {| receiver := receiver s; writer := writer s; request := request s;
     clock := clock s; reads := (n + reads s)%nat; trace := trace s ++ evs |}.

(** [s] with [REMOTE_USER] set in the environment of its request. *)
Definition with_remote_user (id : string) (s : Store) : Store :=
  {| receiver := receiver s; writer := writer s;
     request := set_Env "REMOTE_USER" (VString id) (request s);
     clock := clock s; reads := reads s; trace := trace s |}.

(** [s] after the calls [cs] on its writer. *)
Definition respond (cs : list WriterCall) (s : Store) : Store :=
  {| receiver := receiver s; writer := writer s ++ cs; request := request s;
     clock := clock s; reads := reads s; trace := trace s |}.

(** The calls on the writer that make up the unauthorized response of a
    configuration. *)
Definition unauthorized_response (mw : JWTMiddleware) : list WriterCall :=
  if NeedPrompt mw then
    [Header_Set "WWW-Authenticate" ("Basic realm=" +:+ Realm mw);
     rest_Error "Not Authorized" http_StatusUnauthorized]
  else
    [WriteJson {["Error" := "Not Authorized"]}].

(** A run that answered the request of [s] with the unauthorized response
    and nothing else. *)
Definition answers_unauthorized (s : Store) (o : Outcome unit) : Prop :=
  exists s', o = Return tt s' /\ writer s' = writer s ++ unauthorized_response (receiver s).

(** A run that answered the request of [s] with [{"token": tokenString}]
    and nothing else. *)
Definition answers_token (s : Store) (tokenString : string) (o : Outcome unit) : Prop :=
  exists s', o = Return tt s' /\ writer s' = writer s ++ [WriteJson {["token" := tokenString]}].

(** The calls made during a run that started in [s]. *)
Definition calls_since {A} (s : Store) (o : Outcome A) : list Event :=
  List.skipn (List.length (trace s)) (trace (final o)).

(** A double quote. *)
Definition dquote : string := String (Ascii.ascii_of_nat 34) EmptyString.

(** ** A small world to run the handlers in

    One registered signing method; a token string is a tag followed by the
    identity as JSON writes it: ["l:"] for a login token that expires at
    second 4600, ["r:"]
    for a refreshable one that was first issued at second 1000, and ["n:"]
    for a token whose claims name nobody. *)

Module World.

Definition GetSigningMethod (alg : string) : option unit :=
  if String.eqb alg "HS256" then Some tt else None.

Definition exp : Z := 4600.
Definition orig_iat : Z := 1000.

Definition sign (_ : unit) (c : MapClaims) (key : option (list Byte.byte)) : result string :=
  match c !! "id", c !! "exp", c !! "orig_iat", size c with
  | Some (VString u), Some (VInt64 e), None, 2%nat =>
      if e =? exp then OK ("l:" +:+ json_string u) else Err "unsupported claims"
  | Some (VString u), Some (VInt64 e), Some (VInt64 o), 3%nat =>
      if (e =? exp) && (o =? orig_iat) then OK ("r:" +:+ json_string u)
      else Err "unsupported claims"
  | _, _, _, _ => Err "unsupported claims"
  end.

Definition verify (tokenString : string) (key : option (list Byte.byte)) (now : time.Time)
  : result (Token unit) :=
  match tokenString with
  | String t (String ":" u) =>
      if exp <=? time.Unix now then Err "token is expired"
      else if Ascii.eqb t "l" then
        OK (mkToken tt (<["exp" := VFloat64 (float64_of_int64 exp)]> {["id" := VString u]}))
      else if Ascii.eqb t "r" then
        OK (mkToken tt (<["orig_iat" := VFloat64 (float64_of_int64 orig_iat)]>
                          (<["exp" := VFloat64 (float64_of_int64 exp)]> {["id" := VString u]})))
      else if Ascii.eqb t "n" then
        OK (mkToken tt {["exp" := VFloat64 (float64_of_int64 exp)]})
      else Err "signature is invalid"
  | _ => Err "token contains an invalid number of segments"
  end.

(** A signer that accepts every claim set and hands out the same token
    string. *)
Definition stamp (_ : unit) (_ : MapClaims) (_ : option (list Byte.byte)) : result string :=
  OK "r:alice".

(** A body is the user name, a colon, the password. *)
Definition decode_login (body : string) : result login :=
  match strings.Cut body ":" with
  | Some (u, p) => OK (mkLogin u p)
  | None => Err "unexpected end of JSON input"
  end.

Definition authenticator (userId password : string) : bool :=
  String.eqb userId "alice" && String.eqb password "secret".

(** Everybody but mallory may pass. *)
Definition authorizator (userId : string) (_ : Request) : bool :=
  negb (String.eqb userId "mallory").

Definition key : option (list Byte.byte) := Some [Byte.x6b; Byte.x65; Byte.x79].

Definition config (maxRefresh : time.Duration) (needPrompt : bool) : JWTMiddleware :=
  {| Realm := "api"; SigningAlgorithm := "HS256"; Key := key;
     Timeout := time.Hour; MaxRefresh := maxRefresh;
     Authenticator := Some authenticator; Authorizator := Some authorizator;
     NeedPrompt := needPrompt |}.

Definition req (authorization : list string) (body : string) : Request :=
  {| Header := match authorization with
               | [] => ∅
               | _ => {["Authorization" := authorization]}
               end;
     Body := body; Env := ∅ |}.

(** A clock that shows second [t0] at the first reading, a millisecond
    more at each of the next three, and stays there. *)
Definition clock_from (t0 : Z) (n : nat) : time.Time :=
  let start := t0 * time.Second in
  nth n [start; start + 1000000; start + 2000000; start + 3000000] (start + 4000000).

Definition store (mw : JWTMiddleware) (r : Request) (t0 : Z) : Store :=
  {| receiver := mw; writer := []; request := r; clock := clock_from t0;
     reads := 0; trace := [] |}.

(** A login of alice at second 1000, and a request that carries an
    Authorization header at second [t0]. *)
Definition login_request (maxRefresh : time.Duration) : Store :=
  store (config maxRefresh false) (req [] "alice:secret") 1000.

Definition bearer_request (mw : JWTMiddleware) (authorization : string) (t0 : Z) : Store :=
  store mw (req [authorization] "") t0.

(** A wrapped handler: it answers with the user it finds in the
    environment. *)
Definition hello : M unit :=
  fun s =>
    match index (Env (request s)) "REMOTE_USER" with
    | VString u => call_writer (WriteJson {["hello" := u]}) s
    | _ => panic "no user" s
    end.

End World.

(** ** The steps of the gate and the contract of the codec *)

(** The signing algorithms the middleware is made for (the comment on the
    field [SigningAlgorithm]): the HMAC family, where the key that signs is
    the key that verifies. *)
Definition symmetric (alg : string) : bool :=
  String.eqb alg "HS256" || String.eqb alg "HS384" || String.eqb alg "HS512".

Section Vocabulary.

Variable SigningMethod : Type.
Variable jwt_GetSigningMethod : string -> option SigningMethod.
Variable jwt_sign : SigningMethod -> MapClaims -> option (list Byte.byte) -> result string.
Variable jwt_verify : string -> option (list Byte.byte) -> time.Time -> result (Token SigningMethod).

(** The request of [s] carries a bearer token that the verifier accepts
    (signature and expiry) under the configured key, at the instant the
    clock shows next; [token] is what it decodes to. *)
Definition verifies (s : Store) (token : Token SigningMethod) : Prop :=
  exists tokenString,
    authHeader s = "Bearer " +:+ tokenString /\
    jwt_verify tokenString (Key (receiver s)) (clock s (reads s)) = OK token.

(** Bearer extraction fails: the header is not [Bearer], a space, and a
    remainder. *)
Definition extraction_fails (s : Store) : Prop :=
  forall tokenString, authHeader s <> "Bearer " +:+ tokenString.

Definition verification_fails (s : Store) : Prop :=
  exists tokenString e,
    authHeader s = "Bearer " +:+ tokenString /\
    jwt_verify tokenString (Key (receiver s)) (clock s (reads s)) = Err e.

Definition authorization_denied (s : Store) : Prop :=
  exists token id authorizator,
    verifies s token /\
    index (Claims token) "id" = VString id /\
    Authorizator (receiver s) = Some authorizator /\
    authorizator id (request s) = false.

(** Every step of the gate succeeds for the user [id]. *)
Definition gate_passes (s : Store) (id : string) : Prop :=
  exists token authorizator,
    verifies s token /\
    index (Claims token) "id" = VString id /\
    Authorizator (receiver s) = Some authorizator /\
    authorizator id (request s) = true.

(** What the handlers rely on from package jwt, which is not part of this
    repository: under a symmetric algorithm, a token string signed for
    plain claims without [nbf], whose [exp] is an integer that JSON carries
    exactly, verifies under the same key at any earlier second, and decodes
    to the claims as [encoding/json] returns them. *)
Definition jwt_roundtrip : Prop :=
  forall alg method key claims tokenString now e,
    symmetric alg = true ->
    jwt_GetSigningMethod alg = Some method ->
    json_plain claims ->
    jwt_sign method claims key = OK tokenString ->
    claims !! "exp" = Some (VInt64 e) ->
    claims !! "nbf" = None ->
    - 2 ^ 53 <= e <= 2 ^ 53 ->
    time.Unix now < e ->
    exists token,
      jwt_verify tokenString key now = OK token /\
      Claims token = json_roundtrip <$> claims.

(** Signing with [method] and [key] never fails. *)
Definition signs_everything (method : SigningMethod) (key : option (list Byte.byte)) : Prop :=
  forall claims, exists tokenString, jwt_sign method claims key = OK tokenString.

End Vocabulary.

Arguments verifies {SigningMethod} jwt_verify s token.
Arguments verification_fails {SigningMethod} jwt_verify s.
Arguments authorization_denied {SigningMethod} jwt_verify s.
Arguments gate_passes {SigningMethod} jwt_verify s id.
Arguments jwt_roundtrip {SigningMethod} jwt_GetSigningMethod jwt_sign jwt_verify.
Arguments signs_everything {SigningMethod} jwt_sign method key.

(** The claims [LoginHandler] puts in a token: [orig_iat] only when
    refreshing is enabled. *)
Definition login_claims (userId : string) (exp : Z) (orig_iat : option Z) : MapClaims :=
  let c := <["exp" := VInt64 exp]> (<["id" := VString userId]> ∅) in
  match orig_iat with
  | Some t => <["orig_iat" := VInt64 t]> c
  | None => c
  end.

(** The claims [RefreshHandler] puts in the replacement token. *)
Definition refresh_claims (id : Value) (exp origIat : Z) : MapClaims :=
  <["orig_iat" := VInt64 origIat]> (<["exp" := VInt64 exp]> (<["id" := id]> ∅)).

(** A computation that leaves the middleware struct as it found it,
    however it ends. *)
Definition keeps_receiver {A} (m : M A) : Prop :=
  forall s, receiver (final (m s)) = receiver s.

(** A required field of a configuration is missing. *)
Definition required_missing (mw : JWTMiddleware) : Prop :=
  Realm mw = "" \/ Key mw = None \/ Authenticator mw = None.

(** The required fields of a configuration are all present. *)
Definition required_present (mw : JWTMiddleware) : Prop :=
  Realm mw <> "" /\ Key mw <> None /\ Authenticator mw <> None.

(** A configuration as [MiddlewareFunc] leaves it: no optional field that
    the handlers use is left out. *)
Definition started (mw : JWTMiddleware) : Prop :=
  required_present mw /\
  SigningAlgorithm mw <> "" /\ Timeout mw <> 0 /\ Authorizator mw <> None.

(** More of the small world: a configuration that leaves every optional
    field out, one whose authorization callback lets everybody pass, and a
    request with a refreshable token that arrives a nanosecond before the
    token expires, so that the next reading of the clock is too late. *)
Definition World_bare_config : JWTMiddleware :=
  {| Realm := "api"; SigningAlgorithm := ""; Key := World.key; Timeout := 0;
     MaxRefresh := 0; Authenticator := Some World.authenticator;
     Authorizator := None; NeedPrompt := false |}.

Definition World_open_config : JWTMiddleware :=
  {| Realm := "api"; SigningAlgorithm := "HS256"; Key := World.key;
     Timeout := time.Hour; MaxRefresh := 0;
     Authenticator := Some World.authenticator;
     Authorizator := Some (fun _ _ => true); NeedPrompt := false |}.

Definition World_expiring_request : Store :=
  {| receiver := World.config (5 * time.Second) false;
     writer := [];
     request := World.req ["Bearer r:alice"] "";
     clock := fun n => nth n [World.exp * time.Second - 1] (World.exp * time.Second);
     reads := 0; trace := [] |}.

(** A configuration that [MiddlewareFunc] refuses, for an application that
    mounts the login and refresh handlers without the gate: realm and key
    are missing. *)
Definition World_unvalidated_config : JWTMiddleware :=
  {| Realm := ""; SigningAlgorithm := "HS256"; Key := None; Timeout := time.Hour;
     MaxRefresh := 5 * time.Second; Authenticator := Some World.authenticator;
     Authorizator := None; NeedPrompt := false |}.

(** ** The life of a server behind the gate *)

Section Serving.

Variable SigningMethod : Type.
Variable jwt_GetSigningMethod : string -> option SigningMethod.
Variable jwt_sign : SigningMethod -> MapClaims -> option (list Byte.byte) -> result string.
Variable jwt_verify : string -> option (list Byte.byte) -> time.Time -> result (Token SigningMethod).
Variable json_decode_login : string -> result login.

(** The stores that a process reaches once [MiddlewareFunc], run in [s0],
    has returned the gate around [handler]: the store it leaves; a reached
    store in which the next request has arrived (the middleware struct is
    the one object that lives on from request to request); and the store
    that the gate, [LoginHandler] or [RefreshHandler] leaves when it has
    served the request of a reached store. *)
Inductive serves (handler : M unit) (s0 : Store) : Store -> Prop :=
| serves_started gate s :
    MiddlewareFunc jwt_verify handler s0 = Return gate s ->
    serves handler s0 s
| serves_arrival s w r c n t :
    serves handler s0 s ->
    serves handler s0
      {| receiver := receiver s; writer := w; request := r;
         clock := c; reads := n; trace := t |}
| serves_gate s :
    serves handler s0 s ->
    serves handler s0 (final (middlewareImpl jwt_verify handler s))
| serves_login s :
    serves handler s0 s ->
    serves handler s0 (final (LoginHandler jwt_GetSigningMethod jwt_sign json_decode_login s))
| serves_refresh s :
    serves handler s0 s ->
    serves handler s0 (final (RefreshHandler jwt_GetSigningMethod jwt_sign jwt_verify s)).

End Serving.

Arguments serves {SigningMethod} jwt_GetSigningMethod jwt_sign jwt_verify json_decode_login
  handler s0 _.

(** * Properties *)

(** ** Splitting the header *)

Lemma append_String (c : ascii) (a b : string) :
  String c a +:+ b = String c (a +:+ b).
Proof. reflexivity. Qed.

Lemma prefix_drop (a s : string) :
  String.prefix a s = true -> s = a +:+ strings.drop (String.length a) s.
Proof.
  revert s. induction a as [|c a IH]; intros s H.
  - reflexivity.
  - destruct s as [|d s]; simpl in H; [discriminate|].
    destruct (ascii_dec c d) as [->|]; [|discriminate].
    rewrite append_String. cbn [String.length strings.drop]. f_equal. apply IH, H.
Qed.

Lemma Cut_Some (s sep before after : string) :
  strings.Cut s sep = Some (before, after) -> s = before +:+ sep +:+ after.
Proof.
  revert before. induction s as [|c s IH]; intros before H.
  - cbn [strings.Cut] in H.
    destruct (String.prefix sep "") eqn:Hp; [|discriminate].
    injection H as <- <-. now apply prefix_drop.
  - cbn [strings.Cut] in H.
    destruct (String.prefix sep (String c s)) eqn:Hp.
    + injection H as <- <-. now apply prefix_drop.
    + destruct (strings.Cut s sep) as [[b a]|] eqn:Hc; [|discriminate].
      injection H as <- <-. rewrite append_String. f_equal. now apply IH.
Qed.

Lemma SplitN_bearer (rest : string) :
  strings.SplitN ("Bearer " +:+ rest) " " 2 = ["Bearer"; rest].
Proof. destruct rest; reflexivity. Qed.

Lemma prefix_append (a b : string) : String.prefix a (a +:+ b) = true.
Proof.
  induction a as [|c a IH]; [now destruct b|].
  rewrite append_String. cbn [String.prefix].
  destruct (ascii_dec c c); [exact IH|congruence].
Qed.

(** A header either starts with [Bearer] and a space, or extraction fails. *)
Lemma bearer_or_not (s : Store) :
  (exists tokenString, authHeader s = "Bearer " +:+ tokenString) \/ extraction_fails s.
Proof.
  destruct (String.prefix "Bearer " (authHeader s)) eqn:Hp.
  - left. eexists. now apply prefix_drop.
  - right. intros tokenString Heq. rewrite Heq, prefix_append in Hp. discriminate.
Qed.

Lemma SplitN_two (h : string) :
  strings.SplitN h " " 2 = [h] \/
  exists before after, strings.SplitN h " " 2 = [before; after] /\ h = before +:+ " " +:+ after.
Proof.
  unfold strings.SplitN. cbn [Z.eqb Z.ltb Z.compare Z.sub Z.add Z.opp Z.pos_sub Z.to_nat
                              Pos.to_nat Pos.iter_op Nat.add Pos.pred_double strings.genSplit].
  change (Z.to_nat (2 - 1)) with 1%nat. cbn [strings.genSplit].
  destruct (strings.Cut h " ") as [[b a]|] eqn:Hc.
  - right. exists b, a. split; [reflexivity|]. now apply Cut_Some.
  - now left.
Qed.

(** ** Integers through float64 *)

Lemma digits2_pos_lower (p : positive) : 2 ^ (Z.pos (digits2_pos p) - 1) <= Z.pos p.
Proof.
  induction p as [p IH|p IH|]; cbn [digits2_pos]; rewrite ?Pos2Z.inj_succ;
    [| |cbn; lia];
    replace (Z.succ (Z.pos (digits2_pos p)) - 1) with (Z.succ (Z.pos (digits2_pos p) - 1)) by lia;
    rewrite Z.pow_succ_r by lia; lia.
Qed.

Lemma digits2_pos_shift (p k : positive) :
  digits2_pos (Pos.iter xO p k) = (digits2_pos p + k)%positive.
Proof.
  induction k as [|k IH] using Pos.peano_ind.
  - cbn. lia.
  - rewrite Pos.iter_succ. cbn [digits2_pos]. rewrite IH. lia.
Qed.

Lemma Zpos_shift (p k : positive) : Z.pos (Pos.iter xO p k) = Z.pos p * 2 ^ Z.pos k.
Proof.
  induction k as [|k IH] using Pos.peano_ind.
  - cbn. lia.
  - rewrite Pos.iter_succ, Pos2Z.inj_succ, Z.pow_succ_r by lia.
    rewrite Pos2Z.inj_xO, IH. lia.
Qed.

(** A mantissa of 53 digits with an exponent in range is already rounded. *)
Lemma binary_round_aux_canonical (sx : bool) (m : positive) (e : Z) :
  digits2_pos m = 53%positive -> -1074 <= e <= 971 ->
  binary_round_aux 53 1024 sx (Z.pos m) e loc_Exact = S754_finite sx m e.
Proof.
  intros Hd He.
  assert (Hshift : fexp 53 1024 (Z.pos (digits2_pos m) + e) - e = 0).
  { rewrite Hd. unfold fexp, emin. lia. }
  unfold binary_round_aux, shr_fexp. cbn [Zdigits2 shr_record_of_loc].
  rewrite Hshift. cbn [shr shr_m loc_of_shr_record round_nearest_even Zdigits2 shr_record_of_loc].
  rewrite Hshift. cbn [shr shr_m].
  destruct (Z.leb_spec e (1024 - 53)); [reflexivity|lia].
Qed.

Lemma binary_round_small (sx : bool) (p : positive) :
  Z.pos p < 2 ^ 53 ->
  exists m e, binary_round 53 1024 sx p 0 = S754_finite sx m e /\
              -52 <= e <= 0 /\ Z.pos m = Z.pos p * 2 ^ (- e).
Proof.
  intros Hp.
  assert (Hd : Z.pos (digits2_pos p) <= 53).
  { destruct (Z.le_gt_cases (Z.pos (digits2_pos p)) 53) as [|Hgt]; [assumption|].
    pose proof (digits2_pos_lower p) as Hl.
    assert (2 ^ 53 <= 2 ^ (Z.pos (digits2_pos p) - 1)) by (apply Z.pow_le_mono_r; lia).
    lia. }
  unfold binary_round, shl_align.
  replace (fexp 53 1024 (Z.pos (digits2_pos p) + 0) - 0) with (Z.pos (digits2_pos p) - 53)
    by (unfold fexp, emin; lia).
  replace (fexp 53 1024 (Z.pos (digits2_pos p) + 0)) with (Z.pos (digits2_pos p) - 53)
    by (unfold fexp, emin; lia).
  destruct (Z.pos (digits2_pos p) - 53) as [|k|k] eqn:Hk; [|lia|].
  - exists p, 0. split; [|split; [lia|cbn; lia]].
    apply binary_round_aux_canonical; [|lia]. lia.
  - exists (Pos.iter xO p k), (Z.neg k). split; [|split; [lia|]].
    + apply binary_round_aux_canonical; [|lia].
      rewrite digits2_pos_shift. lia.
    + rewrite Zpos_shift. reflexivity.
Qed.

Lemma int64_of_finite (sx : bool) (m p : positive) (e : Z) :
  -52 <= e <= 0 -> Z.pos m = Z.pos p * 2 ^ (- e) -> Z.pos p < 2 ^ 53 ->
  int64_of_float64 (S754_finite sx m e) = if sx then Z.neg p else Z.pos p.
Proof.
  intros He Hm Hp. unfold int64_of_float64.
  assert (Hmag : (if 0 <=? e then Z.pos m * 2 ^ e else Z.pos m / 2 ^ (- e)) = Z.pos p).
  { destruct (Z.leb_spec 0 e).
    - replace e with 0 in * by lia. cbn in Hm |- *. lia.
    - rewrite Hm. apply Z.div_mul. apply Z.pow_nonzero; lia. }
  rewrite Hmag.
  assert (Hin : forall z, - 2 ^ 53 < z < 2 ^ 53 ->
                          (int64_min <=? z) && (z <=? int64_max) = true).
  { intros z Hz. unfold int64_min, int64_max. apply andb_true_intro. split; apply Z.leb_le; lia. }
  destruct sx; rewrite Hin; lia.
Qed.

(** Integers up to [2 ^ 53] in magnitude survive the trip through
    [float64]. *)
Lemma int64_float64_exact (z : Z) :
  - 2 ^ 53 <= z <= 2 ^ 53 -> int64_of_float64 (float64_of_int64 z) = z.
Proof.
  intros Hz. destruct z as [|p|p].
  - reflexivity.
  - destruct (Z.eq_dec (Z.pos p) (2 ^ 53)) as [E|NE].
    + injection E as ->. vm_compute. reflexivity.
    + unfold float64_of_int64, binary_normalize.
      destruct (binary_round_small false p) as (m & e & -> & He & Hm); [lia|].
      rewrite (int64_of_finite false m p e); [reflexivity|assumption..|lia].
  - destruct (Z.eq_dec (Z.pos p) (2 ^ 53)) as [E|NE].
    + injection E as ->. vm_compute. reflexivity.
    + unfold float64_of_int64, binary_normalize.
      destruct (binary_round_small true p) as (m & e & -> & He & Hm); [lia|].
      rewrite (int64_of_finite true m p e); [reflexivity|assumption..|lia].
Qed.

(** ** Running the building blocks *)

Lemma unauthorized_run (s : Store) :
  unauthorized s = Return tt (respond (unauthorized_response (receiver s)) s).
Proof.
  unfold unauthorized, unauthorized_response, respond, bind, mw_field, call_writer.
  destruct (NeedPrompt (receiver s)); cbn; [rewrite <- app_assoc|]; reflexivity.
Qed.

Lemma calls_since_app {A} (s : Store) (o : Outcome A) (evs : list Event) :
  trace (final o) = trace s ++ evs -> calls_since s o = evs.
Proof. unfold calls_since. intros ->. apply drop_app_length. Qed.

Lemma advance_0_nil (s : Store) : advance 0 [] s = s.
Proof. destruct s. unfold advance. cbn. now rewrite app_nil_r. Qed.

Lemma unauthorized_answers (s s1 : Store) :
  writer s1 = writer s -> receiver s1 = receiver s ->
  answers_unauthorized s (unauthorized s1).
Proof.
  intros Hw Hr. exists (respond (unauthorized_response (receiver s1)) s1).
  split; [apply unauthorized_run|]. cbn. now rewrite Hw, Hr.
Qed.

Lemma unauthorized_calls (s : Store) (n : nat) (evs : list Event) :
  calls_since s (unauthorized (advance n evs s)) = evs.
Proof. rewrite unauthorized_run. now apply calls_since_app. Qed.

Lemma wrap_int64_small (z : Z) : int64_min <= z <= int64_max -> wrap_int64 z = z.
Proof.
  unfold int64_min, int64_max, wrap_int64. intros H.
  rewrite Z.mod_small; lia.
Qed.

Lemma neg_in_range (d : time.Duration) : int64_min < d <= int64_max -> time.neg d = - d.
Proof.
  unfold time.neg. intros H. apply wrap_int64_small.
  unfold int64_min, int64_max in *. lia.
Qed.

Lemma Unix_Add_seconds (t : time.Time) (k : Z) :
  time.Unix (time.Add t (k * time.Second)) = time.Unix t + k.
Proof. unfold time.Unix, time.Add. now rewrite Z.div_add. Qed.

Lemma token_is_not_unauthorized (mw : JWTMiddleware) (tokenString : string) :
  unauthorized_response mw <> [WriteJson {["token" := tokenString]}].
Proof.
  unfold unauthorized_response. destruct (NeedPrompt mw); [discriminate|].
  intros H.
  apply (f_equal (fun cs => match cs with
                            | [WriteJson m] => m !! "Error"
                            | _ => None
                            end)) in H.
  rewrite lookup_singleton_eq, lookup_singleton_ne in H; discriminate.
Qed.

Lemma unauthorized_not_token (s s1 : Store) (tokenString : string) :
  writer s1 = writer s -> answers_token s tokenString (unauthorized s1) -> False.
Proof.
  intros Hw (s' & Hrun & Hs'). rewrite unauthorized_run in Hrun.
  injection Hrun as <-. cbn in Hs'. rewrite Hw in Hs'.
  apply app_inv_head in Hs'. now apply token_is_not_unauthorized in Hs'.
Qed.

Lemma token_not_unauthorized (s s1 : Store) (tokenString : string) :
  writer s1 = writer s ->
  answers_unauthorized s (Return tt (respond [WriteJson {["token" := tokenString]}] s1)) ->
  False.
Proof.
  intros Hw (s' & Hrun & Hs'). injection Hrun as <-. cbn in Hs'. rewrite Hw in Hs'.
  apply app_inv_head in Hs'. symmetry in Hs'. now apply token_is_not_unauthorized in Hs'.
Qed.

Lemma answers_token_inv (s s1 : Store) (tokenString str : string) :
  writer s1 = writer s ->
  answers_token s tokenString (Return tt (respond [WriteJson {["token" := str]}] s1)) ->
  str = tokenString.
Proof.
  intros Hw (s' & Hrun & Hs'). injection Hrun as <-. cbn in Hs'. rewrite Hw in Hs'.
  apply app_inv_head in Hs'.
  apply (f_equal (fun cs => match cs with
                            | [WriteJson m] => m !! "token"
                            | _ => None
                            end)) in Hs'.
  rewrite !lookup_singleton_eq in Hs'. congruence.
Qed.

Lemma login_claims_exp (userId : string) (exp : Z) (orig_iat : option Z) :
  login_claims userId exp orig_iat !! "exp" = Some (VInt64 exp).
Proof. unfold login_claims. destruct orig_iat; now simplify_map_eq. Qed.

Lemma login_claims_id (userId : string) (exp : Z) (orig_iat : option Z) :
  login_claims userId exp orig_iat !! "id" = Some (VString userId).
Proof. unfold login_claims. destruct orig_iat; now simplify_map_eq. Qed.

Lemma login_claims_nbf (userId : string) (exp : Z) (orig_iat : option Z) :
  login_claims userId exp orig_iat !! "nbf" = None.
Proof. unfold login_claims. destruct orig_iat; now simplify_map_eq. Qed.

Lemma login_claims_orig_iat (userId : string) (exp : Z) (orig_iat : option Z) :
  login_claims userId exp orig_iat !! "orig_iat" = VInt64 <$> orig_iat.
Proof. unfold login_claims. destruct orig_iat; now simplify_map_eq. Qed.

(** ** Strings and claims on their way through JSON *)

Lemma json_string_from_valid (s : string) (pending : nat) :
  utf8.valid_from pending s = true -> json_string_from pending s = s.
Proof.
  revert pending. induction s as [|c s IH]; intros pending H; [reflexivity|].
  destruct pending as [|k]; cbn [utf8.valid_from json_string_from] in *.
  - destruct (utf8.DecodeRuneInString (String c s)) as [[|k]|]; try discriminate.
    f_equal. now apply IH.
  - f_equal. now apply IH.
Qed.

(** Valid UTF-8 comes back from JSON as it went in. *)
Lemma json_string_valid (s : string) :
  utf8.ValidString s = true -> json_string s = s.
Proof. apply json_string_from_valid. Qed.

Lemma json_plain_empty : json_plain ∅.
Proof. intros k v H. now rewrite lookup_empty in H. Qed.

Lemma json_plain_insert (k : string) (v : Value) (claims : MapClaims) :
  utf8.ValidString k = true -> json_flat v = true ->
  json_plain claims -> json_plain (<[k := v]> claims).
Proof.
  intros Hk Hv Hc k' v' H. apply lookup_insert_Some in H as [[<- <-]|[_ H]].
  - now split.
  - now apply Hc in H.
Qed.

Lemma login_claims_plain (userId : string) (exp : Z) (orig_iat : option Z) :
  json_plain (login_claims userId exp orig_iat).
Proof.
  unfold login_claims.
  destruct orig_iat; repeat (apply json_plain_insert; [reflexivity|reflexivity|]);
    apply json_plain_empty.
Qed.

Lemma refresh_claims_plain (id : Value) (exp origIat : Z) :
  json_flat id = true -> json_plain (refresh_claims id exp origIat).
Proof.
  intros Hid. unfold refresh_claims.
  apply json_plain_insert; [reflexivity|reflexivity|].
  apply json_plain_insert; [reflexivity|reflexivity|].
  apply json_plain_insert; [reflexivity|exact Hid|].
  apply json_plain_empty.
Qed.

(** Whole seconds: [Unix] rounds down to the second. *)
Lemma Unix_bounds (t : time.Time) :
  time.Unix t * time.Second <= t < (time.Unix t + 1) * time.Second.
Proof.
  unfold time.Unix, time.Second.
  pose proof (Z.div_mod t 1000000000). pose proof (Z.mod_pos_bound t 1000000000). lia.
Qed.

(** ** Computations that leave the middleware struct alone *)

Lemma keeps_ret {A} (a : A) : keeps_receiver (ret a).
Proof. now intros s. Qed.

Lemma keeps_panic {A} (msg : string) : keeps_receiver (@panic A msg).
Proof. now intros s. Qed.

Lemma keeps_read {A} (f : Store -> A) : keeps_receiver (fun s => Return (f s) s).
Proof. now intros s. Qed.

Lemma keeps_mw_field {A} (F : JWTMiddleware -> A) : keeps_receiver (mw_field F).
Proof. now intros s. Qed.

Lemma keeps_call_writer (c : WriterCall) : keeps_receiver (call_writer c).
Proof. now intros s. Qed.

Lemma keeps_emit (e : Event) : keeps_receiver (emit e).
Proof. now intros s. Qed.

Lemma keeps_time_Now : keeps_receiver time_Now.
Proof. now intros s. Qed.

Lemma keeps_update_request (f : Request -> Request) : keeps_receiver (update_request f).
Proof. now intros s. Qed.

Lemma keeps_bind {A B} (m : M A) (k : A -> M B) :
  keeps_receiver m -> (forall a, keeps_receiver (k a)) -> keeps_receiver (bind m k).
Proof.
  intros Hm Hk s. unfold bind. specialize (Hm s).
  destruct (m s) as [a s'| |]; cbn in *; [|assumption..].
  now rewrite Hk.
Qed.

Create HintDb keeps.
#[local] Hint Resolve keeps_ret keeps_panic keeps_mw_field keeps_call_writer keeps_emit
  keeps_time_Now keeps_update_request : keeps.

(** Walks down a handler: binds, then branches. *)
Ltac keeps :=
  repeat first
    [ apply keeps_bind; [|intros ?]
    | progress auto with keeps
    | apply keeps_read
    | match goal with
      | |- keeps_receiver (match ?x with _ => _ end) => destruct x
      | |- keeps_receiver (if ?b then _ else _) => destruct b
      end ].

Lemma keeps_unauthorized : keeps_receiver unauthorized.
Proof. unfold unauthorized. keeps. Qed.

#[local] Hint Resolve keeps_unauthorized : keeps.

(** Closes [~ In e evs] for a call [e] that differs from each of [evs]. *)
Ltac no_such_call :=
  let H := fresh in
  cbn; intros H; repeat (destruct H as [H|H]; [discriminate H|]); exact H.

Section Properties.

Set Default Proof Using "Type".

Variable SigningMethod : Type.
Variable jwt_GetSigningMethod : string -> option SigningMethod.
Variable jwt_sign : SigningMethod -> MapClaims -> option (list Byte.byte) -> result string.
Variable jwt_verify : string -> option (list Byte.byte) -> time.Time -> result (Token SigningMethod).
Variable json_decode_login : string -> result login.

Lemma jwt_Parse_run (tokenString : string) (key : option (list Byte.byte)) (s : Store) :
  jwt_Parse jwt_verify tokenString key s
  = Return (jwt_verify tokenString key (clock s (reads s)))
           (advance 1 [Call_jwt_Parse tokenString] s).
Proof. reflexivity. Qed.

Lemma parseToken_bearer (key : option (list Byte.byte)) (s : Store) (tokenString : string) :
  authHeader s = "Bearer " +:+ tokenString ->
  parseToken jwt_verify key s = jwt_Parse jwt_verify tokenString key s.
Proof.
  unfold authHeader, parseToken, bind, request_Header_Get. intros ->.
  rewrite SplitN_bearer. reflexivity.
Qed.

Lemma parseToken_no_bearer (key : option (list Byte.byte)) (s : Store) :
  extraction_fails s ->
  exists e, parseToken jwt_verify key s = Return (Err e) s.
Proof.
  unfold extraction_fails, authHeader, parseToken, bind, ret, request_Header_Get. intros Hno.
  destruct (String.eqb _ "") eqn:He; [eauto|].
  destruct (SplitN_two (Header_Get (Header (request s)) "Authorization"))
    as [-> | (b & a & -> & Hh)]; [cbn; eauto|].
  cbn [length Nat.eqb andb nth].
  destruct (String.eqb b "Bearer") eqn:Hb; [|cbn; eauto].
  apply String.eqb_eq in Hb. subst b. now destruct (Hno a).
Qed.

(** The gate, once the token of the request has been verified. *)
Lemma gate_after_verification (handler : M unit) (s : Store) (tokenString : string)
      (token : Token SigningMethod) :
  authHeader s = "Bearer " +:+ tokenString ->
  jwt_verify tokenString (Key (receiver s)) (clock s (reads s)) = OK token ->
  middlewareImpl jwt_verify handler s =
    match index (Claims token) "id" with
    | VString id =>
        match Authorizator (receiver s) with
        | None =>
            Panic "invalid memory address or nil pointer dereference"
                  (advance 1 [Call_jwt_Parse tokenString] s)
        | Some authorizator =>
            if authorizator id (request s) then
              handler (with_remote_user id
                         (advance 1 [Call_jwt_Parse tokenString; Call_Authorizator id;
                                     Call_handler] s))
            else
              unauthorized (advance 1 [Call_jwt_Parse tokenString; Call_Authorizator id] s)
        end
    | _ =>
        Panic "interface conversion: interface {} is not string"
              (advance 1 [Call_jwt_Parse tokenString] s)
    end.
Proof.
  intros Hh Hv. unfold middlewareImpl, bind at 1 2. unfold mw_field at 1.
  rewrite (parseToken_bearer _ _ _ Hh), jwt_Parse_run, Hv.
  destruct (index (Claims token) "id") as [| |id| | | |]; try reflexivity.
  unfold assert_string, bind, ret, call_Authorizator, bind, mw_field. cbn [receiver advance].
  destruct (Authorizator (receiver s)) as [authorizator|]; [|reflexivity].
  cbn. destruct (authorizator id (request s)); cbn.
  - unfold with_remote_user, advance. cbn. now rewrite <- !app_assoc.
  - unfold advance. cbn. now rewrite <- !app_assoc.
Qed.

Lemma gate_verification_error (handler : M unit) (s : Store) (tokenString : string) (e : error) :
  authHeader s = "Bearer " +:+ tokenString ->
  jwt_verify tokenString (Key (receiver s)) (clock s (reads s)) = Err e ->
  middlewareImpl jwt_verify handler s
  = unauthorized (advance 1 [Call_jwt_Parse tokenString] s).
Proof.
  intros Hh Hv. unfold middlewareImpl, bind at 1 2. unfold mw_field at 1.
  now rewrite (parseToken_bearer _ _ _ Hh), jwt_Parse_run, Hv.
Qed.

Lemma gate_extraction_error (handler : M unit) (s : Store) :
  extraction_fails s -> middlewareImpl jwt_verify handler s = unauthorized s.
Proof.
  intros Hx. unfold middlewareImpl, bind at 1 2. unfold mw_field at 1.
  destruct (parseToken_no_bearer (Key (receiver s)) s Hx) as [e ->]. reflexivity.
Qed.

(** Every run of the gate is one of three: it hands the request to the
    wrapped handler, it answers unauthorized, or it panics; in the last
    two the wrapped handler plays no part. *)
Lemma gate_cases (s : Store) :
  (exists id tokenString,
      gate_passes jwt_verify s id /\
      forall handler,
        middlewareImpl jwt_verify handler s
        = handler (with_remote_user id
                     (advance 1 [Call_jwt_Parse tokenString; Call_Authorizator id;
                                 Call_handler] s)))
  \/ (exists n evs,
        ~ In Call_handler evs /\
        ((forall handler,
             middlewareImpl jwt_verify handler s = unauthorized (advance n evs s))
         \/ (exists msg, forall handler,
                middlewareImpl jwt_verify handler s = Panic msg (advance n evs s)))).
Proof.
  destruct (bearer_or_not s) as [[tokenString Hh]|Hx].
  - destruct (jwt_verify tokenString (Key (receiver s)) (clock s (reads s)))
      as [token|e] eqn:Hv.
    + pose proof (fun handler => gate_after_verification handler s tokenString token Hh Hv)
        as Hg.
      destruct (index (Claims token) "id") as [| |id| | | |] eqn:Hid;
        try solve [right; exists 1%nat, [Call_jwt_Parse tokenString];
                   split; [no_such_call|right; eexists; exact Hg]].
      destruct (Authorizator (receiver s)) as [authorizator|] eqn:Ha;
        [|right; exists 1%nat, [Call_jwt_Parse tokenString];
          split; [no_such_call|right; eexists; exact Hg]].
      destruct (authorizator id (request s)) eqn:Hok.
      * left. exists id, tokenString. split; [|exact Hg].
        exists token, authorizator. repeat split; try assumption.
        exists tokenString. now split.
      * right. exists 1%nat, [Call_jwt_Parse tokenString; Call_Authorizator id].
        split; [no_such_call|left; exact Hg].
    + right. exists 1%nat, [Call_jwt_Parse tokenString].
      split; [no_such_call|left].
      intros handler. now apply gate_verification_error with (e := e).
  - right. exists 0%nat, []. split; [now cbn|left].
    intros handler. rewrite advance_0_nil. now apply gate_extraction_error.
Qed.

(** *** Bearer extraction *)

(** C5, as the code has it: extraction succeeds exactly when the header
    is [Bearer], one space, and a remainder; the candidate token is the
    whole remainder after that first space (it may be empty and it may
    contain further spaces) and goes to the verifier; for every other
    header [parseToken] returns an error and leaves the store as it was, so
    the verifier is not called. *)
Theorem bearer_extraction (key : option (list Byte.byte)) (s : Store) :
  (forall tokenString,
      authHeader s = "Bearer " +:+ tokenString ->
      parseToken jwt_verify key s
      = Return (jwt_verify tokenString key (clock s (reads s)))
               (advance 1 [Call_jwt_Parse tokenString] s))
  /\ (extraction_fails s ->
      exists e, parseToken jwt_verify key s = Return (Err e) s)
  /\ ((exists tokenString, authHeader s = "Bearer " +:+ tokenString) \/ extraction_fails s).
Proof.
  split; [|split].
  - intros tokenString Hh. now rewrite (parseToken_bearer _ _ _ Hh), jwt_Parse_run.
  - apply parseToken_no_bearer.
  - apply bearer_or_not.
Qed.

(** *** The gate *)

(** C1, as the code has it: when the token of the request verifies and
    its [id] claim is absent or not a string, the unchecked assertion
    panics: the gate writes no response, does not call the authorization
    check and does not invoke the wrapped handler. *)
Theorem gate_identity_assertion_panics (handler : M unit) (s : Store)
        (token : Token SigningMethod) :
  verifies jwt_verify s token ->
  (forall id, index (Claims token) "id" <> VString id) ->
  exists msg s',
    middlewareImpl jwt_verify handler s = Panic msg s' /\
    writer s' = writer s /\
    ~ In Call_handler (calls_since s (middlewareImpl jwt_verify handler s)) /\
    (forall id, ~ In (Call_Authorizator id)
                     (calls_since s (middlewareImpl jwt_verify handler s))).
Proof.
  intros (tokenString & Hh & Hv) Hid.
  rewrite (gate_after_verification handler s tokenString token Hh Hv).
  destruct (index (Claims token) "id") as [| |id| | | |];
    try (now destruct (Hid id));
    (do 2 eexists; split; [reflexivity|]; split; [reflexivity|];
     rewrite (calls_since_app s _ [Call_jwt_Parse tokenString]) by reflexivity;
     split; [|intros id']; no_such_call).
Qed.

(** C6: when bearer extraction, token verification or the authorization
    check fails, the gate answers with the unauthorized response, the
    wrapped handler is not invoked and the run is the same whatever the
    wrapped handler is; when every step succeeds the wrapped handler runs
    last; and the gate invokes it in no other case. *)
Theorem gate_rejection_short_circuits (handler : M unit) (s : Store) :
  (extraction_fails s \/ verification_fails jwt_verify s \/ authorization_denied jwt_verify s ->
     answers_unauthorized s (middlewareImpl jwt_verify handler s) /\
     ~ In Call_handler (calls_since s (middlewareImpl jwt_verify handler s)) /\
     forall handler',
       middlewareImpl jwt_verify handler' s = middlewareImpl jwt_verify handler s)
  /\ (forall id,
        gate_passes jwt_verify s id ->
        exists s',
          (forall handler', middlewareImpl jwt_verify handler' s = handler' s') /\
          exists evs, trace s' = trace s ++ evs ++ [Call_handler])
  /\ (In Call_handler (calls_since s (middlewareImpl jwt_verify (ret tt) s)) ->
      exists id, gate_passes jwt_verify s id).
Proof.
  split; [|split].
  - assert (Hrej : forall n evs,
               ~ In Call_handler evs ->
               (forall h, middlewareImpl jwt_verify h s = unauthorized (advance n evs s)) ->
               answers_unauthorized s (middlewareImpl jwt_verify handler s) /\
               ~ In Call_handler (calls_since s (middlewareImpl jwt_verify handler s)) /\
               forall handler',
                 middlewareImpl jwt_verify handler' s = middlewareImpl jwt_verify handler s).
    { intros n evs Hevs Hg. rewrite !Hg. split; [now apply unauthorized_answers|].
      split; [now rewrite unauthorized_calls|]. intros h. now rewrite Hg. }
    intros [Hx | [(tokenString & e & Hh & Hv) | (token & id & authorizator & Hver & Hid & Ha & Hno)]].
    + apply (Hrej 0%nat []); [now cbn|].
      intros h. rewrite advance_0_nil. now apply gate_extraction_error.
    + apply (Hrej 1%nat [Call_jwt_Parse tokenString]); [no_such_call|].
      intros h. now apply gate_verification_error with (e := e).
    + destruct Hver as (tokenString & Hh & Hv).
      apply (Hrej 1%nat [Call_jwt_Parse tokenString; Call_Authorizator id]);
        [no_such_call|].
      intros h. rewrite (gate_after_verification h s tokenString token Hh Hv).
      now rewrite Hid, Ha, Hno.
  - intros id (token & authorizator & (tokenString & Hh & Hv) & Hid & Ha & Hyes).
    eexists. split.
    + intros h. rewrite (gate_after_verification h s tokenString token Hh Hv).
      rewrite Hid, Ha, Hyes. reflexivity.
    + exists [Call_jwt_Parse tokenString; Call_Authorizator id]. reflexivity.
  - intros Hin.
    destruct (gate_cases s) as [(id & _ & Hp & _) | (n & evs & Hevs & [Hg | [msg Hg]])].
    + now exists id.
    + rewrite Hg, unauthorized_calls in Hin. contradiction.
    + rewrite Hg in Hin. rewrite (calls_since_app s _ evs) in Hin by reflexivity.
      contradiction.
Qed.

(** C9: when every step succeeds, the store the gate hands to the wrapped
    handler differs from the one it started in only by [REMOTE_USER] in
    the environment of the request (the middleware struct and the writer
    are as they were); in every other run the gate leaves both the
    middleware struct and the request as they were. *)
Theorem gate_mutates_only_request_env (handler : M unit) (s : Store) :
  (forall id,
      gate_passes jwt_verify s id ->
      exists s',
        middlewareImpl jwt_verify handler s = handler s' /\
        receiver s' = receiver s /\
        writer s' = writer s /\
        request s' = set_Env "REMOTE_USER" (VString id) (request s))
  /\ ((forall id, ~ gate_passes jwt_verify s id) ->
      receiver (final (middlewareImpl jwt_verify handler s)) = receiver s /\
      request (final (middlewareImpl jwt_verify handler s)) = request s).
Proof.
  split.
  - intros id (token & authorizator & (tokenString & Hh & Hv) & Hid & Ha & Hyes).
    eexists. split.
    + rewrite (gate_after_verification handler s tokenString token Hh Hv).
      rewrite Hid, Ha, Hyes. reflexivity.
    + now cbn.
  - intros Hno.
    destruct (gate_cases s) as [(id & _ & Hp & _) | (n & evs & _ & [Hg | [msg Hg]])].
    + now destruct (Hno id).
    + rewrite Hg, unauthorized_run. now cbn.
    + rewrite Hg. now cbn.
Qed.

(** *** Refreshing and logging in *)

(** [RefreshHandler], once the token of the request has been verified. *)
Lemma refresh_after_verification (s : Store) (tokenString : string)
      (token : Token SigningMethod) :
  authHeader s = "Bearer " +:+ tokenString ->
  jwt_verify tokenString (Key (receiver s)) (clock s (reads s)) = OK token ->
  RefreshHandler jwt_GetSigningMethod jwt_sign jwt_verify s =
    match index (Claims token) "orig_iat" with
    | VFloat64 f =>
        let origIat := int64_of_float64 f in
        if origIat <? time.Unix (time.Add (clock s (1 + reads s))
                                          (time.neg (MaxRefresh (receiver s)))) then
          unauthorized (advance 2 [Call_jwt_Parse tokenString] s)
        else
          match jwt_GetSigningMethod (SigningAlgorithm (receiver s)) with
          | None =>
              Panic "invalid memory address or nil pointer dereference"
                    (advance 2 [Call_jwt_Parse tokenString] s)
          | Some method =>
              let claims :=
                refresh_claims (index (Claims token) "id")
                  (time.Unix (time.Add (clock s (2 + reads s)) (Timeout (receiver s))))
                  origIat in
              let s' := advance 3 [Call_jwt_Parse tokenString; Call_SignedString claims] s in
              match jwt_sign method claims (Key (receiver s)) with
              | Err _ => unauthorized s'
              | OK newTokenString =>
                  Return tt (respond [WriteJson {["token" := newTokenString]}] s')
              end
          end
    | _ =>
        Panic "interface conversion: interface {} is not float64"
              (advance 1 [Call_jwt_Parse tokenString] s)
    end.
Proof.
  intros Hh Hv. unfold RefreshHandler, bind at 1 2. unfold mw_field at 1.
  rewrite (parseToken_bearer _ _ _ Hh), jwt_Parse_run, Hv.
  destruct (index (Claims token) "orig_iat") as [| | | |f| |]; try reflexivity.
  unfold assert_float64, bind, ret, mw_field, time_Now. cbn [receiver advance clock reads].
  change (1 + reads s)%nat with (S (reads s)).
  destruct (_ <? _); [unfold advance; cbn; reflexivity|].
  cbn [receiver].
  destruct (jwt_GetSigningMethod (SigningAlgorithm (receiver s))) as [method|];
    [|reflexivity].
  unfold jwt_New, ret, SignedString, bind, emit, ret, set_claim, refresh_claims.
  cbn [receiver clock reads Claims Method trace writer request].
  destruct (jwt_sign method _ (Key (receiver s))) as [newTokenString|e];
    unfold advance, respond, call_writer; cbn; now rewrite <- ?app_assoc.
Qed.

(** [LoginHandler], step by step. *)
Lemma login_run (s : Store) :
  LoginHandler jwt_GetSigningMethod jwt_sign json_decode_login s =
    match json_decode_login (Body (request s)) with
    | Err _ => unauthorized s
    | OK login_vals =>
        let userId := Username login_vals in
        let password := Password login_vals in
        match Authenticator (receiver s) with
        | None => Panic "invalid memory address or nil pointer dereference" s
        | Some authenticator =>
            if authenticator userId password then
              match jwt_GetSigningMethod (SigningAlgorithm (receiver s)) with
              | None =>
                  Panic "invalid memory address or nil pointer dereference"
                        (advance 0 [Call_Authenticator userId password] s)
              | Some method =>
                  let exp := time.Unix (time.Add (clock s (reads s)) (Timeout (receiver s))) in
                  let refreshable := negb (MaxRefresh (receiver s) =? 0) in
                  let claims :=
                    login_claims userId exp
                      (if refreshable then Some (time.Unix (clock s (1 + reads s))) else None) in
                  let s' := advance (if refreshable then 2 else 1)
                              [Call_Authenticator userId password; Call_SignedString claims] s in
                  match jwt_sign method claims (Key (receiver s)) with
                  | Err _ => unauthorized s'
                  | OK tokenString =>
                      Return tt (respond [WriteJson {["token" := tokenString]}] s')
                  end
              end
            else unauthorized (advance 0 [Call_Authenticator userId password] s)
        end
    end.
Proof.
  unfold LoginHandler, bind at 1. unfold DecodeJsonPayload at 1.
  destruct (json_decode_login (Body (request s))) as [login_vals|e]; [|reflexivity].
  unfold call_Authenticator, bind, mw_field.
  destruct (Authenticator (receiver s)) as [authenticator|]; [|reflexivity].
  cbn. destruct (authenticator _ _); [|reflexivity]. cbn.
  destruct (jwt_GetSigningMethod (SigningAlgorithm (receiver s))) as [method|];
    [|reflexivity].
  cbn. unfold login_claims.
  destruct (MaxRefresh (receiver s) =? 0); cbn;
    destruct (jwt_sign method _ (Key (receiver s))) as [tokenString|e];
    unfold advance, respond, call_writer, unauthorized, bind, mw_field;
    cbn; now rewrite <- ?app_assoc.
Qed.


(** What a successful refresh did: the token string in the answer is the
    signature of the refresh claims. *)
Lemma refresh_answer_inv (s : Store) (token : Token SigningMethod) (f : float64)
      (newTokenString : string) :
  verifies jwt_verify s token ->
  index (Claims token) "orig_iat" = VFloat64 f ->
  answers_token s newTokenString (RefreshHandler jwt_GetSigningMethod jwt_sign jwt_verify s) ->
  exists method,
    jwt_GetSigningMethod (SigningAlgorithm (receiver s)) = Some method /\
    let claims :=
      refresh_claims (index (Claims token) "id")
        (time.Unix (time.Add (clock s (2 + reads s)) (Timeout (receiver s))))
        (int64_of_float64 f) in
    jwt_sign method claims (Key (receiver s)) = OK newTokenString /\
    In (Call_SignedString claims)
       (calls_since s (RefreshHandler jwt_GetSigningMethod jwt_sign jwt_verify s)).
Proof.
  intros (tokenString & Hh & Hv) Hiat Hans.
  rewrite (refresh_after_verification s tokenString token Hh Hv) in Hans |- *.
  rewrite Hiat in Hans |- *. cbn zeta in Hans |- *.
  destruct (int64_of_float64 f <? _); [now apply unauthorized_not_token in Hans|].
  destruct (jwt_GetSigningMethod (SigningAlgorithm (receiver s))) as [method|];
    [|destruct Hans as (? & ? & _); discriminate].
  set (claims := refresh_claims _ _ _) in *.
  destruct (jwt_sign method claims (Key (receiver s))) as [str|e] eqn:Hs;
    [|now apply unauthorized_not_token in Hans].
  apply answers_token_inv in Hans as ->; [|reflexivity].
  exists method. split; [reflexivity|]. split; [exact Hs|].
  rewrite (calls_since_app s _ [Call_jwt_Parse tokenString; Call_SignedString claims])
    by reflexivity.
  cbn. auto.
Qed.

(** C4: a successful refresh of a verified token whose [orig_iat] reads
    as [t0] signs a replacement with the [id] of the presented token, with
    [orig_iat] equal to [t0], and with [exp] equal to the second that lies
    the configured timeout after the instant of the refresh. *)
Theorem refresh_carries_claims (s : Store) (token : Token SigningMethod) (f : float64)
        (newTokenString : string) :
  verifies jwt_verify s token ->
  index (Claims token) "orig_iat" = VFloat64 f ->
  answers_token s newTokenString (RefreshHandler jwt_GetSigningMethod jwt_sign jwt_verify s) ->
  let t0 := int64_of_float64 f in
  let refreshed_at := clock s (2 + reads s) in
  exists method claims,
    jwt_GetSigningMethod (SigningAlgorithm (receiver s)) = Some method /\
    jwt_sign method claims (Key (receiver s)) = OK newTokenString /\
    In (Call_SignedString claims)
       (calls_since s (RefreshHandler jwt_GetSigningMethod jwt_sign jwt_verify s)) /\
    index claims "id" = index (Claims token) "id" /\
    index claims "orig_iat" = VInt64 t0 /\
    index claims "exp" = VInt64 (time.Unix (time.Add refreshed_at (Timeout (receiver s)))) /\
    (forall k, Timeout (receiver s) = k * time.Second ->
               index claims "exp" = VInt64 (time.Unix refreshed_at + k)).
Proof.
  intros Hv Hiat Hans t0 refreshed_at.
  destruct (refresh_answer_inv s token f newTokenString Hv Hiat Hans)
    as (method & Hm & Hs & Hcall).
  fold t0 in Hs, Hcall. fold refreshed_at in Hs, Hcall.
  set (claims := refresh_claims _ _ t0) in *.
  assert (Hexp : index claims "exp"
                 = VInt64 (time.Unix (time.Add refreshed_at (Timeout (receiver s)))))
    by (unfold claims, refresh_claims, index; now simplify_map_eq).
  exists method, claims.
  split; [exact Hm|]. split; [exact Hs|]. split; [exact Hcall|].
  split; [|split; [|split]].
  - unfold claims, refresh_claims, index. now simplify_map_eq.
  - unfold claims, refresh_claims, index. now simplify_map_eq.
  - exact Hexp.
  - intros k Hk. now rewrite Hexp, Hk, Unix_Add_seconds.
Qed.

(** C10: a refresh request whose token verifies but whose [orig_iat]
    claim is absent or not a number makes the unchecked assertion of
    [RefreshHandler] panic: no response is written, the unauthorized one
    included. *)
Theorem refresh_orig_iat_assertion_panics (s : Store) (token : Token SigningMethod) :
  verifies jwt_verify s token ->
  (forall f, index (Claims token) "orig_iat" <> VFloat64 f) ->
  exists msg s',
    RefreshHandler jwt_GetSigningMethod jwt_sign jwt_verify s = Panic msg s' /\
    writer s' = writer s /\
    ~ answers_unauthorized s (RefreshHandler jwt_GetSigningMethod jwt_sign jwt_verify s).
Proof.
  intros (tokenString & Hh & Hv) Hiat.
  rewrite (refresh_after_verification s tokenString token Hh Hv).
  destruct (index (Claims token) "orig_iat") as [| | | |f| |];
    try (now destruct (Hiat f));
    (do 2 eexists; split; [reflexivity|]; split; [reflexivity|];
     intros (? & ? & _); discriminate).
Qed.

(** What a successful login did: the payload decoded, and the token
    string in the answer is the signature of the login claims. *)
Lemma login_answer_inv (s : Store) (tokenString : string) :
  answers_token s tokenString (LoginHandler jwt_GetSigningMethod jwt_sign json_decode_login s) ->
  exists login_vals method,
    json_decode_login (Body (request s)) = OK login_vals /\
    jwt_GetSigningMethod (SigningAlgorithm (receiver s)) = Some method /\
    jwt_sign method
      (login_claims (Username login_vals)
         (time.Unix (time.Add (clock s (reads s)) (Timeout (receiver s))))
         (if negb (MaxRefresh (receiver s) =? 0)
          then Some (time.Unix (clock s (1 + reads s))) else None))
      (Key (receiver s)) = OK tokenString.
Proof.
  intros Hans. rewrite login_run in Hans.
  destruct (json_decode_login (Body (request s))) as [login_vals|e];
    [|now apply unauthorized_not_token in Hans].
  cbn zeta in Hans.
  destruct (Authenticator (receiver s)) as [authenticator|];
    [|destruct Hans as (? & ? & _); discriminate].
  destruct (authenticator _ _); [|now apply unauthorized_not_token in Hans].
  destruct (jwt_GetSigningMethod (SigningAlgorithm (receiver s))) as [method|];
    [|destruct Hans as (? & ? & _); discriminate].
  destruct (jwt_sign method _ (Key (receiver s))) as [str|e] eqn:Hs;
    [|now apply unauthorized_not_token in Hans].
  apply answers_token_inv in Hans as ->; [|reflexivity].
  now exists login_vals, method.
Qed.

(** What the verifier makes of a token string that [LoginHandler] has
    just answered with, at an instant before the second of its expiry and
    under the key that signed it: the codec is applied to the login claims,
    which are plain and have no [nbf]. *)
Lemma login_token_claims (s : Store) (tokenString : string) (now : time.Time) :
  jwt_roundtrip jwt_GetSigningMethod jwt_sign jwt_verify ->
  symmetric (SigningAlgorithm (receiver s)) = true ->
  answers_token s tokenString (LoginHandler jwt_GetSigningMethod jwt_sign json_decode_login s) ->
  let exp := time.Unix (time.Add (clock s (reads s)) (Timeout (receiver s))) in
  - 2 ^ 53 <= exp <= 2 ^ 53 ->
  time.Unix now < exp ->
  exists login_vals token,
    json_decode_login (Body (request s)) = OK login_vals /\
    jwt_verify tokenString (Key (receiver s)) now = OK token /\
    Claims token
    = json_roundtrip <$>
        login_claims (Username login_vals) exp
          (if negb (MaxRefresh (receiver s) =? 0)
           then Some (time.Unix (clock s (1 + reads s))) else None).
Proof.
  intros Hcodec Halg Hans exp Hexact Hfresh.
  destruct (login_answer_inv s tokenString Hans) as (login_vals & method & Hd & Hm & Hs).
  fold exp in Hs.
  destruct (Hcodec _ method _ _ _ now exp Halg Hm (login_claims_plain _ _ _) Hs)
    as (token & Hv & Hc);
    [apply login_claims_exp|apply login_claims_nbf|exact Hexact|exact Hfresh|].
  now exists login_vals, token.
Qed.

(** C3: a token string that [LoginHandler] has just answered with,
    presented as a bearer token under the same key before the second of
    its expiry, verifies; the decoded [id] is the user name of the login
    and the decoded [exp] is the second that lies the timeout after the
    instant the handler read first, as JSON returns it: a [float64] that
    converts back to exactly that second, the whole second in which the
    instant of minting plus the timeout falls.  Package jwt is not part of
    the repository: its codec is taken to round-trip for the symmetric
    algorithms the middleware is made for, with strings as [encoding/json]
    carries them; the user name is valid UTF-8, as every string is that
    [DecodeJsonPayload] hands over. *)
Theorem login_token_verifies (s s2 : Store) (tokenString : string) :
  jwt_roundtrip jwt_GetSigningMethod jwt_sign jwt_verify ->
  symmetric (SigningAlgorithm (receiver s)) = true ->
  (forall login_vals,
     json_decode_login (Body (request s)) = OK login_vals ->
     utf8.ValidString (Username login_vals) = true) ->
  answers_token s tokenString (LoginHandler jwt_GetSigningMethod jwt_sign json_decode_login s) ->
  let minted_at := clock s (reads s) in
  let exp := time.Unix (time.Add minted_at (Timeout (receiver s))) in
  - 2 ^ 53 <= exp <= 2 ^ 53 ->
  authHeader s2 = "Bearer " +:+ tokenString ->
  Key (receiver s2) = Key (receiver s) ->
  time.Unix (clock s2 (reads s2)) < exp ->
  exists login_vals token,
    json_decode_login (Body (request s)) = OK login_vals /\
    parseToken jwt_verify (Key (receiver s2)) s2
    = Return (OK token) (advance 1 [Call_jwt_Parse tokenString] s2) /\
    index (Claims token) "id" = VString (Username login_vals) /\
    index (Claims token) "exp" = VFloat64 (float64_of_int64 exp) /\
    int64_of_float64 (float64_of_int64 exp) = exp /\
    exp * time.Second <= time.Add minted_at (Timeout (receiver s)) < (exp + 1) * time.Second.
Proof.
  intros Hcodec Halg Hutf Hans minted_at exp Hexact Hh Hkey Hfresh.
  destruct (login_token_claims s tokenString (clock s2 (reads s2)) Hcodec Halg Hans Hexact Hfresh)
    as (login_vals & token & Hd & Hv & Hc).
  exists login_vals, token. split; [exact Hd|]. split; [|split; [|split; [|split]]].
  - rewrite (parseToken_bearer _ _ _ Hh), jwt_Parse_run, Hkey, Hv. reflexivity.
  - unfold index. rewrite Hc, lookup_fmap, login_claims_id. cbn.
    now rewrite json_string_valid by now apply Hutf.
  - unfold index. now rewrite Hc, lookup_fmap, login_claims_exp.
  - now apply int64_float64_exact.
  - apply Unix_bounds.
Qed.

(** X22: a session, from login to refresh: the replacement token of a token
    that [LoginHandler] issued carries the user name of the login and the
    second of the login as [orig_iat].  The codec of package jwt is taken
    to round-trip and the user name to be valid UTF-8. *)
Lemma session_keeps_issue_time (s s2 : Store) (tokenString newTokenString : string) :
  jwt_roundtrip jwt_GetSigningMethod jwt_sign jwt_verify ->
  symmetric (SigningAlgorithm (receiver s)) = true ->
  (forall login_vals,
     json_decode_login (Body (request s)) = OK login_vals ->
     utf8.ValidString (Username login_vals) = true) ->
  MaxRefresh (receiver s) <> 0 ->
  answers_token s tokenString (LoginHandler jwt_GetSigningMethod jwt_sign json_decode_login s) ->
  let issued := time.Unix (clock s (1 + reads s)) in
  let exp := time.Unix (time.Add (clock s (reads s)) (Timeout (receiver s))) in
  - 2 ^ 53 <= issued <= 2 ^ 53 ->
  - 2 ^ 53 <= exp <= 2 ^ 53 ->
  authHeader s2 = "Bearer " +:+ tokenString ->
  Key (receiver s2) = Key (receiver s) ->
  time.Unix (clock s2 (reads s2)) < exp ->
  answers_token s2 newTokenString (RefreshHandler jwt_GetSigningMethod jwt_sign jwt_verify s2) ->
  exists login_vals method,
    json_decode_login (Body (request s)) = OK login_vals /\
    jwt_sign method
      (refresh_claims (VString (Username login_vals))
         (time.Unix (time.Add (clock s2 (2 + reads s2)) (Timeout (receiver s2))))
         issued)
      (Key (receiver s2)) = OK newTokenString.
Proof.
  intros Hcodec Halg Hutf Hmr Hans issued exp Hissued Hexact Hh Hkey Hfresh Hans2.
  destruct (login_token_claims s tokenString (clock s2 (reads s2)) Hcodec Halg Hans Hexact Hfresh)
    as (login_vals & token & Hd & Hv & Hc).
  apply Z.eqb_neq in Hmr. rewrite Hmr in Hc. cbn [negb] in Hc. fold issued in Hc.
  assert (Hver : verifies jwt_verify s2 token)
    by (exists tokenString; split; [exact Hh|now rewrite Hkey]).
  assert (Hiat : index (Claims token) "orig_iat" = VFloat64 (float64_of_int64 issued))
    by (unfold index; now rewrite Hc, lookup_fmap, login_claims_orig_iat).
  assert (Hid : index (Claims token) "id" = VString (Username login_vals)).
  { unfold index. rewrite Hc, lookup_fmap, login_claims_id. cbn.
    now rewrite json_string_valid by now apply Hutf. }
  destruct (refresh_answer_inv s2 token _ newTokenString Hver Hiat Hans2)
    as (method2 & _ & Hs2 & _).
  rewrite int64_float64_exact, Hid in Hs2 by exact Hissued.
  now exists login_vals, method2.
Qed.

(** X23: a token that [LoginHandler] issued while refreshing was disabled has
    no [orig_iat]: presenting it to [RefreshHandler] panics.  The codec of
    package jwt is taken to round-trip. *)
Lemma login_without_refresh_cannot_refresh (s s2 : Store) (tokenString : string) :
  jwt_roundtrip jwt_GetSigningMethod jwt_sign jwt_verify ->
  symmetric (SigningAlgorithm (receiver s)) = true ->
  MaxRefresh (receiver s) = 0 ->
  answers_token s tokenString (LoginHandler jwt_GetSigningMethod jwt_sign json_decode_login s) ->
  let exp := time.Unix (time.Add (clock s (reads s)) (Timeout (receiver s))) in
  - 2 ^ 53 <= exp <= 2 ^ 53 ->
  authHeader s2 = "Bearer " +:+ tokenString ->
  Key (receiver s2) = Key (receiver s) ->
  time.Unix (clock s2 (reads s2)) < exp ->
  exists msg s',
    RefreshHandler jwt_GetSigningMethod jwt_sign jwt_verify s2 = Panic msg s' /\
    writer s' = writer s2.
Proof.
  intros Hcodec Halg Hmr Hans exp Hexact Hh Hkey Hfresh.
  destruct (login_token_claims s tokenString (clock s2 (reads s2)) Hcodec Halg Hans Hexact Hfresh)
    as (login_vals & token & Hd & Hv & Hc).
  rewrite Hmr in Hc. cbn [Z.eqb negb] in Hc.
  rewrite <- Hkey in Hv.
  rewrite (refresh_after_verification s2 tokenString token Hh Hv).
  unfold index. rewrite Hc, lookup_fmap, login_claims_orig_iat. cbn.
  now do 2 eexists.
Qed.

(** *** Start-up *)

Lemma keeps_parseToken (key : option (list Byte.byte)) :
  keeps_receiver (parseToken jwt_verify key).
Proof. unfold parseToken, jwt_Parse. keeps. Qed.

Lemma keeps_LoginHandler :
  keeps_receiver (LoginHandler jwt_GetSigningMethod jwt_sign json_decode_login).
Proof.
  unfold LoginHandler, DecodeJsonPayload, call_Authenticator, jwt_New, SignedString. keeps.
Qed.

Lemma keeps_RefreshHandler :
  keeps_receiver (RefreshHandler jwt_GetSigningMethod jwt_sign jwt_verify).
Proof.
  unfold RefreshHandler, assert_float64, jwt_New, SignedString.
  apply keeps_bind; [auto with keeps|intros key].
  apply keeps_bind; [apply keeps_parseToken|intros r]. keeps.
Qed.

Lemma keeps_middlewareImpl (handler : M unit) :
  keeps_receiver handler -> keeps_receiver (middlewareImpl jwt_verify handler).
Proof.
  intros Hh. unfold middlewareImpl, assert_string, call_Authorizator.
  apply keeps_bind; [auto with keeps|intros key].
  apply keeps_bind; [apply keeps_parseToken|intros r]. keeps.
Qed.

(** C7, as the code has it: [MiddlewareFunc] ends the process when the
    realm, the key or the authenticator is missing, so that no gate exists
    and nothing is ever served behind it; it returns a gate only for a
    configuration in which the three are present, and they are the ones
    supplied (the fields it fills in are the optional ones); whatever a
    process serves after that, through the gate, [LoginHandler] or
    [RefreshHandler], it serves under that configuration, since none of
    them assigns to the struct when a request comes in.  The validation is
    the gate's: the login and refresh handlers themselves check nothing. *)
Theorem startup_validation_is_fatal (handler : M unit) (s : Store) :
  (required_missing (receiver s) ->
     (exists msg s', MiddlewareFunc jwt_verify handler s = Fatal msg s') /\
     (forall s',
        ~ serves jwt_GetSigningMethod jwt_sign jwt_verify json_decode_login handler s s'))
  /\ (forall gate s',
        MiddlewareFunc jwt_verify handler s = Return gate s' ->
        gate = middlewareImpl jwt_verify handler /\
        required_present (receiver s') /\
        Realm (receiver s') = Realm (receiver s) /\
        Key (receiver s') = Key (receiver s) /\
        Authenticator (receiver s') = Authenticator (receiver s))
  /\ (keeps_receiver handler ->
      forall s',
        serves jwt_GetSigningMethod jwt_sign jwt_verify json_decode_login handler s s' ->
        required_present (receiver s') /\
        Realm (receiver s') = Realm (receiver s) /\
        Key (receiver s') = Key (receiver s) /\
        Authenticator (receiver s') = Authenticator (receiver s))
  /\ (keeps_receiver handler -> keeps_receiver (middlewareImpl jwt_verify handler))
  /\ keeps_receiver (LoginHandler jwt_GetSigningMethod jwt_sign json_decode_login)
  /\ keeps_receiver (RefreshHandler jwt_GetSigningMethod jwt_sign jwt_verify).
Proof.
  assert (Hfatal : required_missing (receiver s) ->
                   exists msg s', MiddlewareFunc jwt_verify handler s = Fatal msg s').
  { unfold required_missing, MiddlewareFunc, bind, mw_field, when, log_Fatal, update_mw, ret.
    intros [Hr | [Hk | Ha]].
    - rewrite Hr. cbn. eauto.
    - destruct (String.eqb (Realm (receiver s)) ""); [eauto|].
      destruct (String.eqb (SigningAlgorithm (receiver s)) ""); cbn; rewrite Hk; cbn; eauto.
    - destruct (String.eqb (Realm (receiver s)) ""); [eauto|].
      destruct (String.eqb (SigningAlgorithm (receiver s)) ""); cbn;
        (destruct (Key (receiver s)); cbn; [|eauto]);
        (destruct (Timeout (receiver s) =? 0); cbn; rewrite Ha; cbn; eauto). }
  assert (Hgate : forall gate s',
             MiddlewareFunc jwt_verify handler s = Return gate s' ->
             gate = middlewareImpl jwt_verify handler /\
             required_present (receiver s') /\
             Realm (receiver s') = Realm (receiver s) /\
             Key (receiver s') = Key (receiver s) /\
             Authenticator (receiver s') = Authenticator (receiver s)).
  { unfold required_present, MiddlewareFunc, bind, mw_field, when, log_Fatal, update_mw, ret.
    intros gate s'.
    destruct (String.eqb (Realm (receiver s)) "") eqn:Hr; [discriminate|].
    apply String.eqb_neq in Hr.
    destruct (String.eqb (SigningAlgorithm (receiver s)) ""); cbn;
      (destruct (Key (receiver s)) as [key|] eqn:Hk; cbn; [|discriminate]);
      (destruct (Timeout (receiver s) =? 0); cbn);
      (destruct (Authenticator (receiver s)) as [authenticator|] eqn:Ha; cbn; [|discriminate]);
      (destruct (Authorizator (receiver s)); cbn);
      intros H; injection H as <- <-; cbn; rewrite ?Hk, ?Ha; repeat split; congruence. }
  split; [|split; [exact Hgate|split; [|split; [|split]]]].
  - intros Hmiss. split; [now apply Hfatal|].
    destruct (Hfatal Hmiss) as (msg & sf & Hf).
    intros s' Hserves. induction Hserves as [gate s1 Hret| | | |]; try assumption.
    rewrite Hf in Hret. discriminate.
  - intros Hh s' Hserves.
    induction Hserves as [gate s1 Hret|s1 w r c n t _ IH|s1 _ IH|s1 _ IH|s1 _ IH].
    + now apply Hgate in Hret.
    + exact IH.
    + now rewrite (keeps_middlewareImpl handler Hh s1).
    + now rewrite (keeps_LoginHandler s1).
    + now rewrite (keeps_RefreshHandler s1).
  - apply keeps_middlewareImpl.
  - apply keeps_LoginHandler.
  - apply keeps_RefreshHandler.
Qed.

(** *** The unauthorized response *)

(** C8, as the code has it: the unauthorized response is decided by the
    [NeedPrompt] flag alone.  With the flag set the writer gets the header
    [WWW-Authenticate] with the value [Basic realm=] followed by the realm
    as configured, without quotation marks around it, and then
    [rest.Error] with the message [Not Authorized] and status 401.
    Without the flag the status is left alone and the body is the JSON
    object with the single entry [Error: Not Authorized]. *)
Theorem unauthorized_by_flag (s : Store) :
  unauthorized s
  = Return tt
      (respond
         (if NeedPrompt (receiver s) then
            [Header_Set "WWW-Authenticate" ("Basic realm=" +:+ Realm (receiver s));
             rest_Error "Not Authorized" 401]
          else [WriteJson {["Error" := "Not Authorized"]}])
         s).
Proof. apply unauthorized_run. Qed.

(** ** More on start-up *)

(** What [MiddlewareFunc] does to a configuration whose required fields
    are present. *)
Lemma MiddlewareFunc_run (handler : M unit) (s : Store) :
  required_present (receiver s) ->
  MiddlewareFunc jwt_verify handler s
  = Return (middlewareImpl jwt_verify handler)
      {| receiver :=
           {| Realm := Realm (receiver s);
              SigningAlgorithm :=
                if String.eqb (SigningAlgorithm (receiver s)) "" then "HS256"
                else SigningAlgorithm (receiver s);
              Key := Key (receiver s);
              Timeout :=
                if Timeout (receiver s) =? 0 then time.Hour else Timeout (receiver s);
              MaxRefresh := MaxRefresh (receiver s);
              Authenticator := Authenticator (receiver s);
              Authorizator :=
                match Authorizator (receiver s) with
                | None => Some (fun _ _ => true)
                | Some f => Some f
                end;
              NeedPrompt := NeedPrompt (receiver s) |};
         writer := writer s; request := request s; clock := clock s;
         reads := reads s; trace := trace s |}.
Proof.
  intros (Hr & Hk & Ha). destruct s as [[realm alg key timeout maxRefresh authn authz prompt] w r c n t].
  cbn in *. unfold MiddlewareFunc, bind, mw_field, when, log_Fatal, update_mw, ret. cbn.
  apply String.eqb_neq in Hr. rewrite Hr.
  destruct key as [key|]; [|congruence]. destruct authn as [authn|]; [|congruence].
  destruct authz;
    repeat (cbn; match goal with
                 | |- context [if ?b then _ else _] => destruct b eqn:?
                 end);
    reflexivity.
Qed.

(** X1: on a configuration whose required fields are present
    [MiddlewareFunc] returns the gate and leaves a complete configuration:
    the algorithm, the timeout and the authorization callback are filled in
    exactly where they were left out ([HS256], one hour, a callback that
    lets everybody pass) and every value the application set is kept;
    writer and request are not touched. *)
Theorem MiddlewareFunc_fills_defaults (handler : M unit) (s : Store) :
  required_present (receiver s) ->
  exists s',
    MiddlewareFunc jwt_verify handler s = Return (middlewareImpl jwt_verify handler) s' /\
    started (receiver s') /\
    (SigningAlgorithm (receiver s) = "" -> SigningAlgorithm (receiver s') = "HS256") /\
    (SigningAlgorithm (receiver s) <> "" ->
     SigningAlgorithm (receiver s') = SigningAlgorithm (receiver s)) /\
    (Timeout (receiver s) = 0 -> Timeout (receiver s') = time.Hour) /\
    (Timeout (receiver s) <> 0 -> Timeout (receiver s') = Timeout (receiver s)) /\
    (Authorizator (receiver s) = None ->
     exists f, Authorizator (receiver s') = Some f /\ forall id r, f id r = true) /\
    (Authorizator (receiver s) <> None ->
     Authorizator (receiver s') = Authorizator (receiver s)) /\
    Realm (receiver s') = Realm (receiver s) /\
    Key (receiver s') = Key (receiver s) /\
    Authenticator (receiver s') = Authenticator (receiver s) /\
    MaxRefresh (receiver s') = MaxRefresh (receiver s) /\
    NeedPrompt (receiver s') = NeedPrompt (receiver s) /\
    writer s' = writer s /\ request s' = request s.
Proof.
  intros Hp. eexists. split; [apply (MiddlewareFunc_run handler s Hp)|]. cbn.
  destruct Hp as (Hr & Hk & Ha).
  split; [|repeat split].
  - repeat split; cbn; try assumption.
    + destruct (String.eqb _ "") eqn:E; [discriminate|now apply String.eqb_neq].
    + destruct (Timeout (receiver s) =? 0) eqn:E; [discriminate|now apply Z.eqb_neq].
    + now destruct (Authorizator (receiver s)).
  - intros ->. reflexivity.
  - intros H. apply String.eqb_neq in H. now rewrite H.
  - intros ->. reflexivity.
  - intros H. apply Z.eqb_neq in H. now rewrite H.
  - intros ->. now eexists.
  - intros H. now destruct (Authorizator (receiver s)).
Qed.

Lemma MiddlewareFunc_Return_inv (handler gate : M unit) (s s' : Store) :
  MiddlewareFunc jwt_verify handler s = Return gate s' -> required_present (receiver s).
Proof.
  intros Hrun. unfold required_present.
  unfold MiddlewareFunc, bind, mw_field, when, log_Fatal, update_mw, ret in Hrun.
  destruct (String.eqb (Realm (receiver s)) "") eqn:Hr; [discriminate|].
  apply String.eqb_neq in Hr. split; [exact Hr|].
  destruct (String.eqb (SigningAlgorithm (receiver s)) ""); cbn in Hrun;
    (destruct (Key (receiver s)); cbn in Hrun; [|discriminate]);
    (destruct (Timeout (receiver s) =? 0); cbn in Hrun);
    (destruct (Authenticator (receiver s)); cbn in Hrun; [|discriminate]);
    split; congruence.
Qed.

(** X2: starting twice changes nothing the second time: on the store that
    [MiddlewareFunc] returned, [MiddlewareFunc] returns again, for any
    wrapped handler, and leaves the store as it is. *)
Theorem MiddlewareFunc_idempotent (handler handler' : M unit) (gate : M unit) (s s' : Store) :
  MiddlewareFunc jwt_verify handler s = Return gate s' ->
  MiddlewareFunc jwt_verify handler' s' = Return (middlewareImpl jwt_verify handler') s'.
Proof.
  intros Hrun.
  pose proof (MiddlewareFunc_Return_inv handler gate s s' Hrun) as Hp.
  rewrite (MiddlewareFunc_run handler s Hp) in Hrun. injection Hrun as _ <-.
  rewrite MiddlewareFunc_run by (destruct Hp as (? & ? & ?); repeat split; assumption).
  cbn [receiver writer request clock reads trace Realm SigningAlgorithm Key Timeout
       MaxRefresh Authenticator Authorizator NeedPrompt].
  destruct (String.eqb (SigningAlgorithm (receiver s)) "") eqn:Ea;
    destruct (Timeout (receiver s) =? 0) eqn:Et;
    destruct (Authorizator (receiver s));
    cbn; rewrite ?Ea, ?Et; reflexivity.
Qed.

(** X3: the message [MiddlewareFunc] dies with names the first required
    field that is missing, in the order realm, key, authenticator; when the
    realm is missing the configuration has not been touched. *)
Theorem MiddlewareFunc_fatal_message (handler : M unit) (s : Store) :
  (Realm (receiver s) = "" ->
   MiddlewareFunc jwt_verify handler s = Fatal "Realm is required" s)
  /\ (Realm (receiver s) <> "" -> Key (receiver s) = None ->
      exists s', MiddlewareFunc jwt_verify handler s = Fatal "Key required" s')
  /\ (Realm (receiver s) <> "" -> Key (receiver s) <> None ->
      Authenticator (receiver s) = None ->
      exists s', MiddlewareFunc jwt_verify handler s = Fatal "Authenticator is required" s').
Proof.
  unfold MiddlewareFunc, bind, mw_field, when, log_Fatal, update_mw, ret.
  split; [|split].
  - intros ->. reflexivity.
  - intros Hr Hk. apply String.eqb_neq in Hr. rewrite Hr.
    destruct (String.eqb (SigningAlgorithm (receiver s)) ""); cbn; rewrite Hk; cbn; eauto.
  - intros Hr Hk Ha. apply String.eqb_neq in Hr. rewrite Hr.
    destruct (String.eqb (SigningAlgorithm (receiver s)) ""); cbn;
      (destruct (Key (receiver s)); [|congruence]); cbn;
      (destruct (Timeout (receiver s) =? 0)); cbn; rewrite Ha; cbn; eauto.
Qed.

(** ** More on the gate *)

(** X4: when the application sets no authorization callback, the gate that
    [MiddlewareFunc] returns lets every request pass whose token verifies
    with a string [id]: the wrapped handler runs, with [REMOTE_USER] set to
    that [id]. *)
Theorem default_authorization_lets_everybody_pass
        (handler gate : M unit) (s0 s1 s : Store) (token : Token SigningMethod) (id : string) :
  Authorizator (receiver s0) = None ->
  MiddlewareFunc jwt_verify handler s0 = Return gate s1 ->
  receiver s = receiver s1 ->
  verifies jwt_verify s token ->
  index (Claims token) "id" = VString id ->
  exists tokenString,
    gate s = handler (with_remote_user id
                        (advance 1 [Call_jwt_Parse tokenString; Call_Authorizator id;
                                    Call_handler] s)).
Proof.
  intros Hnone Hrun Hcfg (tokenString & Hh & Hv) Hid.
  pose proof (MiddlewareFunc_Return_inv handler gate s0 s1 Hrun) as Hp.
  rewrite (MiddlewareFunc_run handler s0 Hp) in Hrun. injection Hrun as <- <-.
  exists tokenString.
  rewrite (gate_after_verification handler s tokenString token Hh Hv), Hid, Hcfg.
  cbn [receiver Authorizator]. now rewrite Hnone.
Qed.

(** X5: the gate itself panics only on a verified token without a string
    [id]: under a configuration with an authorization callback, if every
    token that verifies for the request names a string [id], the gate
    either answers unauthorized without invoking the wrapped handler or
    hands the request over to it. *)
Theorem gate_with_string_ids_does_not_panic (handler : M unit) (s : Store) :
  Authorizator (receiver s) <> None ->
  (forall token, verifies jwt_verify s token ->
                 exists id, index (Claims token) "id" = VString id) ->
  (answers_unauthorized s (middlewareImpl jwt_verify handler s) /\
   ~ In Call_handler (calls_since s (middlewareImpl jwt_verify handler s)))
  \/ (exists id s',
        gate_passes jwt_verify s id /\
        middlewareImpl jwt_verify handler s = handler s').
Proof.
  intros Hauthz Hids.
  destruct (bearer_or_not s) as [[tokenString Hh]|Hx].
  - destruct (jwt_verify tokenString (Key (receiver s)) (clock s (reads s)))
      as [token|e] eqn:Hv.
    + assert (Hver : verifies jwt_verify s token) by (exists tokenString; now split).
      destruct (Hids token Hver) as [id Hid].
      rewrite (gate_after_verification handler s tokenString token Hh Hv), Hid.
      destruct (Authorizator (receiver s)) as [authorizator|] eqn:Ha; [|congruence].
      destruct (authorizator id (request s)) eqn:Hok.
      * right. exists id. eexists. split; [|reflexivity].
        now exists token, authorizator.
      * left. split; [now apply unauthorized_answers|].
        rewrite unauthorized_calls. no_such_call.
    + left. rewrite (gate_verification_error handler s tokenString e Hh Hv).
      split; [now apply unauthorized_answers|].
      rewrite unauthorized_calls. no_such_call.
  - left. rewrite (gate_extraction_error handler s Hx).
    split; [now apply unauthorized_answers|].
    rewrite <- (advance_0_nil s) at 2. rewrite unauthorized_calls. now cbn.
Qed.

(** ** More on logging in *)

Lemma answers_exclusive (s : Store) (tokenString : string) (o : Outcome unit) :
  answers_unauthorized s o -> answers_token s tokenString o -> False.
Proof.
  intros (s1 & -> & Hw1) (s2 & Heq & Hw2). injection Heq as <-.
  rewrite Hw1 in Hw2. apply app_inv_head in Hw2.
  now apply token_is_not_unauthorized in Hw2.
Qed.

(** X6: a [LoginHandler] whose authenticator is set and whose signing
    algorithm is registered answers every request exactly once, with the
    unauthorized response or with a token, never with both; it does not
    panic and it leaves the request as it was. *)
Theorem configured_login_answers_once (s : Store) :
  Authenticator (receiver s) <> None ->
  jwt_GetSigningMethod (SigningAlgorithm (receiver s)) <> None ->
  let o := LoginHandler jwt_GetSigningMethod jwt_sign json_decode_login s in
  (answers_unauthorized s o \/ exists tokenString, answers_token s tokenString o) /\
  ~ (answers_unauthorized s o /\ exists tokenString, answers_token s tokenString o) /\
  request (final o) = request s.
Proof.
  intros Ha Hm o.
  split; [|split; [intros (Hu & t & Ht); exact (answers_exclusive s t o Hu Ht)|]];
    subst o; rewrite login_run;
    destruct (json_decode_login (Body (request s))) as [login_vals|e]; cbn zeta;
    try (destruct (Authenticator (receiver s)) as [authenticator|]; [|congruence];
         destruct (authenticator _ _);
         [destruct (jwt_GetSigningMethod (SigningAlgorithm (receiver s))) as [method|];
          [|congruence];
          destruct (jwt_sign method _ (Key (receiver s))) as [tokenString|e]|]).
  all: try (left; now apply unauthorized_answers).
  all: try (rewrite unauthorized_run; reflexivity).
  - right. exists tokenString. eexists. split; reflexivity.
  - reflexivity.
Qed.

(** X7: [LoginHandler] answers with a token exactly when the payload
    decodes, the authenticator accepts the decoded user name and password,
    the signing algorithm is registered and signing the login claims
    succeeds; the token in the answer is that signature. *)
Theorem login_answers_token_iff (s : Store) (tokenString : string) :
  answers_token s tokenString (LoginHandler jwt_GetSigningMethod jwt_sign json_decode_login s)
  <-> exists login_vals authenticator method,
        json_decode_login (Body (request s)) = OK login_vals /\
        Authenticator (receiver s) = Some authenticator /\
        authenticator (Username login_vals) (Password login_vals) = true /\
        jwt_GetSigningMethod (SigningAlgorithm (receiver s)) = Some method /\
        jwt_sign method
          (login_claims (Username login_vals)
             (time.Unix (time.Add (clock s (reads s)) (Timeout (receiver s))))
             (if negb (MaxRefresh (receiver s) =? 0)
              then Some (time.Unix (clock s (1 + reads s))) else None))
          (Key (receiver s)) = OK tokenString.
Proof.
  rewrite login_run. split.
  - intros Hans.
    destruct (json_decode_login (Body (request s))) as [login_vals|e];
      [|now apply unauthorized_not_token in Hans].
    cbn zeta in Hans.
    destruct (Authenticator (receiver s)) as [authenticator|];
      [|destruct Hans as (? & ? & _); discriminate].
    destruct (authenticator _ _) eqn:Hok; [|now apply unauthorized_not_token in Hans].
    destruct (jwt_GetSigningMethod (SigningAlgorithm (receiver s))) as [method|];
      [|destruct Hans as (? & ? & _); discriminate].
    destruct (jwt_sign method _ (Key (receiver s))) as [str|e] eqn:Hs;
      [|now apply unauthorized_not_token in Hans].
    apply answers_token_inv in Hans as ->; [|reflexivity].
    now exists login_vals, authenticator, method.
  - intros (login_vals & authenticator & method & -> & -> & Hok & -> & Hs).
    cbn zeta. rewrite Hok, Hs. eexists. split; reflexivity.
Qed.

(** X8: a login whose payload does not decode is refused without asking
    the authenticator; a login whose credentials the authenticator rejects
    is refused after that one call.  In both cases the answer is the
    unauthorized response, nothing is signed and the clock is not read. *)
Theorem login_refusals (s : Store) :
  let o := LoginHandler jwt_GetSigningMethod jwt_sign json_decode_login s in
  (forall e, json_decode_login (Body (request s)) = Err e ->
             answers_unauthorized s o /\ calls_since s o = [] /\
             reads (final o) = reads s)
  /\ (forall login_vals authenticator,
        json_decode_login (Body (request s)) = OK login_vals ->
        Authenticator (receiver s) = Some authenticator ->
        authenticator (Username login_vals) (Password login_vals) = false ->
        answers_unauthorized s o /\
        calls_since s o = [Call_Authenticator (Username login_vals) (Password login_vals)] /\
        reads (final o) = reads s).
Proof.
  intros o. subst o. rewrite login_run. split.
  - intros e ->. split; [now apply unauthorized_answers|].
    rewrite unauthorized_run. split; [|reflexivity].
    apply calls_since_app. cbn. now rewrite app_nil_r.
  - intros login_vals authenticator -> -> Hno. cbn zeta. rewrite Hno.
    split; [now apply unauthorized_answers|].
    rewrite unauthorized_calls, unauthorized_run. now split.
Qed.

(** X9: the claims of a token that [LoginHandler] issues are [id] and
    [exp], and [orig_iat] exactly when refreshing is enabled
    ([MaxRefresh] is not 0); [orig_iat] is then the second of the clock
    reading that follows the one [exp] was computed from. *)
Theorem login_claims_shape (s : Store) (tokenString : string) :
  answers_token s tokenString (LoginHandler jwt_GetSigningMethod jwt_sign json_decode_login s) ->
  exists claims,
    In (Call_SignedString claims)
       (calls_since s (LoginHandler jwt_GetSigningMethod jwt_sign json_decode_login s)) /\
    (MaxRefresh (receiver s) = 0 -> dom claims = {["id"; "exp"]}) /\
    (MaxRefresh (receiver s) <> 0 ->
     dom claims = {["id"; "exp"; "orig_iat"]} /\
     claims !! "orig_iat" = Some (VInt64 (time.Unix (clock s (1 + reads s))))).
Proof.
  intros Hans. rewrite login_run in Hans |- *.
  destruct (json_decode_login (Body (request s))) as [login_vals|e];
    [|now apply unauthorized_not_token in Hans].
  cbn zeta in Hans |- *.
  destruct (Authenticator (receiver s)) as [authenticator|];
    [|destruct Hans as (? & ? & _); discriminate].
  destruct (authenticator _ _); [|now apply unauthorized_not_token in Hans].
  destruct (jwt_GetSigningMethod (SigningAlgorithm (receiver s))) as [method|];
    [|destruct Hans as (? & ? & _); discriminate].
  set (claims := login_claims _ _ _) in *.
  destruct (jwt_sign method claims (Key (receiver s))) as [str|e];
    [|now apply unauthorized_not_token in Hans].
  exists claims. split; [|split].
  - rewrite (calls_since_app s _ [Call_Authenticator (Username login_vals) (Password login_vals);
                                  Call_SignedString claims]) by reflexivity.
    cbn. auto.
  - intros Hmr. subst claims. rewrite Hmr. cbn. unfold login_claims.
    rewrite !dom_insert_L, dom_empty_L. set_solver.
  - intros Hmr. apply Z.eqb_neq in Hmr. subst claims. rewrite Hmr. cbn [negb].
    unfold login_claims. split; [|now simplify_map_eq].
    rewrite !dom_insert_L, dom_empty_L. set_solver.
Qed.

(** ** More on refreshing *)

Lemma refresh_extraction_error (s : Store) :
  extraction_fails s ->
  RefreshHandler jwt_GetSigningMethod jwt_sign jwt_verify s = unauthorized s.
Proof.
  intros Hx. unfold RefreshHandler, bind at 1 2. unfold mw_field at 1.
  destruct (parseToken_no_bearer (Key (receiver s)) s Hx) as [e ->]. reflexivity.
Qed.

Lemma refresh_verification_error (s : Store) (tokenString : string) (e : error) :
  authHeader s = "Bearer " +:+ tokenString ->
  jwt_verify tokenString (Key (receiver s)) (clock s (reads s)) = Err e ->
  RefreshHandler jwt_GetSigningMethod jwt_sign jwt_verify s
  = unauthorized (advance 1 [Call_jwt_Parse tokenString] s).
Proof.
  intros Hh Hv. unfold RefreshHandler, bind at 1 2. unfold mw_field at 1.
  now rewrite (parseToken_bearer _ _ _ Hh), jwt_Parse_run, Hv.
Qed.

(** The calls [RefreshHandler] makes: none, the verifier, or the verifier
    and then the signer; the request stays as it was. *)
Lemma refresh_calls (s : Store) :
  let o := RefreshHandler jwt_GetSigningMethod jwt_sign jwt_verify s in
  (calls_since s o = []
   \/ (exists tokenString, calls_since s o = [Call_jwt_Parse tokenString])
   \/ (exists tokenString claims,
         calls_since s o = [Call_jwt_Parse tokenString; Call_SignedString claims]))
  /\ request (final o) = request s.
Proof.
  intros o. subst o.
  destruct (bearer_or_not s) as [[tokenString Hh]|Hx].
  - destruct (jwt_verify tokenString (Key (receiver s)) (clock s (reads s)))
      as [token|e] eqn:Hv.
    + rewrite (refresh_after_verification s tokenString token Hh Hv).
      destruct (index (Claims token) "orig_iat") as [| | | |f| |];
        try (split; [right; left; exists tokenString; now apply calls_since_app|reflexivity]).
      cbn zeta. destruct (_ <? _).
      * rewrite unauthorized_calls, unauthorized_run. split; [right; left; eauto|reflexivity].
      * destruct (jwt_GetSigningMethod (SigningAlgorithm (receiver s))) as [method|];
          [|split; [right; left; exists tokenString; now apply calls_since_app|reflexivity]].
        destruct (jwt_sign method _ (Key (receiver s))) as [str|e].
        -- split; [right; right; do 2 eexists; now apply calls_since_app|reflexivity].
        -- rewrite unauthorized_calls, unauthorized_run.
           split; [right; right; eauto|reflexivity].
    + rewrite (refresh_verification_error s tokenString e Hh Hv).
      rewrite unauthorized_calls, unauthorized_run. split; [right; left; eauto|reflexivity].
  - rewrite (refresh_extraction_error s Hx), unauthorized_run.
    split; [left; apply calls_since_app; cbn; now rewrite app_nil_r|reflexivity].
Qed.

(** X10: [RefreshHandler] does not decide on authorization itself: in no
    run does it call the authorization callback, the authenticator or a
    wrapped handler, and it never changes the request, so it sets no
    [REMOTE_USER]. *)
Theorem refresh_never_authorizes (s : Store) :
  let o := RefreshHandler jwt_GetSigningMethod jwt_sign jwt_verify s in
  (forall id, ~ In (Call_Authorizator id) (calls_since s o)) /\
  (forall userId password, ~ In (Call_Authenticator userId password) (calls_since s o)) /\
  ~ In Call_handler (calls_since s o) /\
  request (final o) = request s.
Proof.
  intros o. destruct (refresh_calls s) as [Hcalls Hreq]. fold o in Hcalls, Hreq.
  split; [|split; [|split; [|exact Hreq]]].
  - intros id. destruct Hcalls as [-> | [[t ->] | (t & c & ->)]]; no_such_call.
  - intros userId password.
    destruct Hcalls as [-> | [[t ->] | (t & c & ->)]]; no_such_call.
  - destruct Hcalls as [-> | [[t ->] | (t & c & ->)]]; no_such_call.
Qed.

(** X11: a refresh request whose header carries no bearer token, or whose
    token the verifier refuses, gets the unauthorized response, and nothing
    is signed. *)
Theorem refresh_refuses_unverified (s : Store) :
  extraction_fails s \/ verification_fails jwt_verify s ->
  let o := RefreshHandler jwt_GetSigningMethod jwt_sign jwt_verify s in
  answers_unauthorized s o /\
  forall claims, ~ In (Call_SignedString claims) (calls_since s o).
Proof.
  intros [Hx | (tokenString & e & Hh & Hv)] o; subst o.
  - rewrite (refresh_extraction_error s Hx). split; [now apply unauthorized_answers|].
    intros claims. rewrite <- (advance_0_nil s) at 2. rewrite unauthorized_calls. now cbn.
  - rewrite (refresh_verification_error s tokenString e Hh Hv).
    split; [now apply unauthorized_answers|].
    intros claims. rewrite unauthorized_calls. no_such_call.
Qed.

(** X12: a [RefreshHandler] whose signing algorithm is registered, given
    a request whose token (if it verifies) carries a numeric [orig_iat],
    answers exactly once, with the unauthorized response or with a token; it
    does not panic. *)
Theorem configured_refresh_answers_once (s : Store) :
  jwt_GetSigningMethod (SigningAlgorithm (receiver s)) <> None ->
  (forall token, verifies jwt_verify s token ->
                 exists f, index (Claims token) "orig_iat" = VFloat64 f) ->
  let o := RefreshHandler jwt_GetSigningMethod jwt_sign jwt_verify s in
  (answers_unauthorized s o \/ exists tokenString, answers_token s tokenString o) /\
  ~ (answers_unauthorized s o /\ exists tokenString, answers_token s tokenString o).
Proof.
  intros Hm Hiat o.
  split; [|intros (Hu & t & Ht); exact (answers_exclusive s t o Hu Ht)].
  subst o. destruct (bearer_or_not s) as [[tokenString Hh]|Hx].
  - destruct (jwt_verify tokenString (Key (receiver s)) (clock s (reads s)))
      as [token|e] eqn:Hv.
    + destruct (Hiat token) as [f Hf]; [exists tokenString; now split|].
      rewrite (refresh_after_verification s tokenString token Hh Hv), Hf. cbn zeta.
      destruct (_ <? _); [left; now apply unauthorized_answers|].
      destruct (jwt_GetSigningMethod (SigningAlgorithm (receiver s))) as [method|];
        [|congruence].
      destruct (jwt_sign method _ (Key (receiver s))) as [str|e].
      * right. exists str. eexists. split; reflexivity.
      * left. now apply unauthorized_answers.
    + rewrite (refresh_verification_error s tokenString e Hh Hv).
      left. now apply unauthorized_answers.
  - rewrite (refresh_extraction_error s Hx). left. now apply unauthorized_answers.
Qed.

(** X13: the replacement token carries exactly three claims, [id], [exp]
    and [orig_iat]: whatever else the presented token claimed is dropped,
    and [id] is set even when the presented token had none (it is then
    nil). *)
Theorem refresh_claims_are_three (s : Store) (newTokenString : string) :
  answers_token s newTokenString (RefreshHandler jwt_GetSigningMethod jwt_sign jwt_verify s) ->
  exists token claims,
    verifies jwt_verify s token /\
    In (Call_SignedString claims)
       (calls_since s (RefreshHandler jwt_GetSigningMethod jwt_sign jwt_verify s)) /\
    dom claims = {["id"; "exp"; "orig_iat"]} /\
    claims !! "id" = Some (index (Claims token) "id").
Proof.
  intros Hans.
  destruct (bearer_or_not s) as [[tokenString Hh]|Hx];
    [|rewrite (refresh_extraction_error s Hx) in Hans;
      now apply unauthorized_not_token in Hans].
  destruct (jwt_verify tokenString (Key (receiver s)) (clock s (reads s)))
    as [token|e] eqn:Hv;
    [|rewrite (refresh_verification_error s tokenString e Hh Hv) in Hans;
      now apply unauthorized_not_token in Hans].
  assert (Hver : verifies jwt_verify s token) by (exists tokenString; now split).
  destruct (index (Claims token) "orig_iat") as [| | | |f| |] eqn:Hiat;
    try (rewrite (refresh_after_verification s tokenString token Hh Hv), Hiat in Hans;
         destruct Hans as (? & ? & _); discriminate).
  destruct (refresh_answer_inv s token f newTokenString Hver Hiat Hans)
    as (method & _ & _ & Hcall).
  exists token. eexists. split; [exact Hver|]. split; [exact Hcall|].
  unfold refresh_claims. split; [|now simplify_map_eq].
  rewrite !dom_insert_L, dom_empty_L. set_solver.
Qed.

(** X14: a successful refresh extends the life of a session by at most
    [MaxRefresh + Timeout] past the second it was first issued in, as the
    comment on the [MaxRefresh] field says: the new expiry lies before the
    end of the second [orig_iat] plus [MaxRefresh] plus [Timeout], give or
    take the time between the two clock readings of the handler. *)
Theorem refresh_validity_bound (s : Store) (token : Token SigningMethod) (f : float64)
        (newTokenString : string) :
  verifies jwt_verify s token ->
  index (Claims token) "orig_iat" = VFloat64 f ->
  int64_min < MaxRefresh (receiver s) <= int64_max ->
  answers_token s newTokenString (RefreshHandler jwt_GetSigningMethod jwt_sign jwt_verify s) ->
  let origIat := int64_of_float64 f in
  let checked_at := clock s (1 + reads s) in
  let minted_at := clock s (2 + reads s) in
  let exp := time.Unix (time.Add minted_at (Timeout (receiver s))) in
  exp * time.Second
  < (origIat + 1) * time.Second + MaxRefresh (receiver s) + Timeout (receiver s)
    + (minted_at - checked_at).
Proof.
  intros (tokenString & Hh & Hv) Hiat Hrange Hans origIat checked_at minted_at exp.
  rewrite (refresh_after_verification s tokenString token Hh Hv), Hiat in Hans.
  cbn zeta in Hans. fold origIat checked_at in Hans.
  rewrite (neg_in_range _ Hrange) in Hans.
  destruct (Z.ltb_spec origIat
              (time.Unix (time.Add checked_at (- MaxRefresh (receiver s))))) as [Hlt|Hge];
    [now apply unauthorized_not_token in Hans|].
  clear Hans. subst exp. unfold time.Unix, time.Add in *.
  pose proof (Z.mul_div_le (minted_at + Timeout (receiver s)) time.Second) as Hexp.
  pose proof (Z.div_mod (checked_at + - MaxRefresh (receiver s)) time.Second) as Hdiv.
  pose proof (Z.mod_pos_bound (checked_at + - MaxRefresh (receiver s)) time.Second) as Hmod.
  unfold time.Second in *. lia.
Qed.

(** X15: once the refresh window of a token has closed it stays closed: if
    [orig_iat] lies before the cut-off of some instant, then a refresh whose
    clock reading is that instant or any later one is refused, whether or
    not the signer would work, and nothing is signed. *)
Theorem refresh_window_stays_closed (s : Store) (token : Token SigningMethod) (f : float64)
        (earlier : time.Time) :
  verifies jwt_verify s token ->
  index (Claims token) "orig_iat" = VFloat64 f ->
  earlier <= clock s (1 + reads s) ->
  int64_of_float64 f < time.Unix (time.Add earlier (time.neg (MaxRefresh (receiver s)))) ->
  let o := RefreshHandler jwt_GetSigningMethod jwt_sign jwt_verify s in
  answers_unauthorized s o /\
  forall claims, ~ In (Call_SignedString claims) (calls_since s o).
Proof.
  intros (tokenString & Hh & Hv) Hiat Hle Hclosed o. subst o.
  rewrite (refresh_after_verification s tokenString token Hh Hv), Hiat. cbn zeta.
  assert (Hmono : time.Unix (time.Add earlier (time.neg (MaxRefresh (receiver s))))
                  <= time.Unix (time.Add (clock s (1 + reads s))
                                         (time.neg (MaxRefresh (receiver s))))).
  { unfold time.Unix, time.Add. apply Z.div_le_mono; [unfold time.Second|]; lia. }
  destruct (Z.ltb_spec (int64_of_float64 f)
              (time.Unix (time.Add (clock s (1 + reads s))
                                   (time.neg (MaxRefresh (receiver s)))))); [|lia].
  split; [now apply unauthorized_answers|].
  intros claims. rewrite unauthorized_calls. no_such_call.
Qed.

Lemma refresh_claims_exp (id : Value) (exp origIat : Z) :
  refresh_claims id exp origIat !! "exp" = Some (VInt64 exp).
Proof. unfold refresh_claims. now simplify_map_eq. Qed.

Lemma refresh_claims_nbf (id : Value) (exp origIat : Z) :
  refresh_claims id exp origIat !! "nbf" = None.
Proof. unfold refresh_claims. now simplify_map_eq. Qed.

Lemma refresh_claims_orig_iat (id : Value) (exp origIat : Z) :
  refresh_claims id exp origIat !! "orig_iat" = Some (VInt64 origIat).
Proof. unfold refresh_claims. now simplify_map_eq. Qed.

Lemma refresh_claims_id (id : Value) (exp origIat : Z) :
  refresh_claims id exp origIat !! "id" = Some id.
Proof. unfold refresh_claims. now simplify_map_eq. Qed.

(** X16: [orig_iat] does not drift along a chain of refreshes: when a
    token is refreshed, and the replacement is presented and refreshed in
    turn, the second replacement carries the same [orig_iat] as the first
    (an integer up to [2 ^ 53], read off the token presented first), and the
    [id] the first replacement had: the flat [id] of the token presented
    first, as JSON returns it.  The codec of package jwt is taken to
    round-trip. *)
Theorem refresh_chain_keeps_issue_time
        (s s2 : Store) (token : Token SigningMethod) (f : float64)
        (tokenString1 tokenString2 : string) :
  jwt_roundtrip jwt_GetSigningMethod jwt_sign jwt_verify ->
  symmetric (SigningAlgorithm (receiver s)) = true ->
  verifies jwt_verify s token ->
  json_flat (index (Claims token) "id") = true ->
  index (Claims token) "orig_iat" = VFloat64 f ->
  answers_token s tokenString1 (RefreshHandler jwt_GetSigningMethod jwt_sign jwt_verify s) ->
  let t0 := int64_of_float64 f in
  let exp1 := time.Unix (time.Add (clock s (2 + reads s)) (Timeout (receiver s))) in
  - 2 ^ 53 <= t0 <= 2 ^ 53 ->
  - 2 ^ 53 <= exp1 <= 2 ^ 53 ->
  authHeader s2 = "Bearer " +:+ tokenString1 ->
  Key (receiver s2) = Key (receiver s) ->
  time.Unix (clock s2 (reads s2)) < exp1 ->
  answers_token s2 tokenString2 (RefreshHandler jwt_GetSigningMethod jwt_sign jwt_verify s2) ->
  exists method,
    jwt_sign method
      (refresh_claims (json_roundtrip (index (Claims token) "id"))
         (time.Unix (time.Add (clock s2 (2 + reads s2)) (Timeout (receiver s2))))
         t0)
      (Key (receiver s2)) = OK tokenString2.
Proof.
  intros Hcodec Halg Hver Hflat Hiat Hans t0 exp1 Ht0 Hexp1 Hh2 Hkey Hfresh Hans2.
  destruct (refresh_answer_inv s token f tokenString1 Hver Hiat Hans)
    as (method & Hm & Hs & _).
  fold t0 exp1 in Hs.
  destruct (Hcodec _ method _ _ _ (clock s2 (reads s2)) exp1 Halg Hm
              (refresh_claims_plain _ _ _ Hflat) Hs) as (token1 & Hv1 & Hc1);
    [apply refresh_claims_exp|apply refresh_claims_nbf|exact Hexp1|exact Hfresh|].
  assert (Hver1 : verifies jwt_verify s2 token1)
    by (exists tokenString1; split; [exact Hh2|now rewrite Hkey]).
  assert (Hiat1 : index (Claims token1) "orig_iat" = VFloat64 (float64_of_int64 t0))
    by (unfold index; now rewrite Hc1, lookup_fmap, refresh_claims_orig_iat).
  assert (Hid1 : index (Claims token1) "id" = json_roundtrip (index (Claims token) "id"))
    by (unfold index at 1; now rewrite Hc1, lookup_fmap, refresh_claims_id).
  destruct (refresh_answer_inv s2 token1 _ tokenString2 Hver1 Hiat1 Hans2)
    as (method2 & _ & Hs2 & _).
  rewrite int64_float64_exact, Hid1 in Hs2 by exact Ht0.
  now exists method2.
Qed.

(** X17: behind the gate, [RefreshHandler] verifies the token a second
    time, at the next reading of the clock: a token that passed the gate but
    no longer verifies then is refused with the unauthorized response,
    written once, and nothing is signed. *)
Theorem gated_refresh_rechecks (s : Store) (id tokenString : string) (e : error) :
  gate_passes jwt_verify s id ->
  authHeader s = "Bearer " +:+ tokenString ->
  jwt_verify tokenString (Key (receiver s)) (clock s (1 + reads s)) = Err e ->
  let o := middlewareImpl jwt_verify
             (RefreshHandler jwt_GetSigningMethod jwt_sign jwt_verify) s in
  answers_unauthorized s o /\
  forall claims, ~ In (Call_SignedString claims) (calls_since s o).
Proof.
  intros (token & authorizator & (tokenString' & Hh' & Hv) & Hid & Ha & Hyes) Hh Hv2 o.
  subst o.
  assert (tokenString' = tokenString) as -> by (rewrite Hh in Hh'; now injection Hh').
  rewrite (gate_after_verification _ s tokenString token Hh Hv), Hid, Ha, Hyes.
  rewrite (refresh_verification_error _ tokenString e); [|exact Hh|exact Hv2].
  split; [now apply unauthorized_answers|].
  intros claims. rewrite unauthorized_run.
  rewrite (calls_since_app s _ [Call_jwt_Parse tokenString; Call_Authorizator id; Call_handler;
                                Call_jwt_Parse tokenString]);
    [no_such_call|].
  cbn. now rewrite <- !app_assoc.
Qed.

(** X18: behind the gate a refreshed token always names a string [id]:
    when the token verifies to the same claims at the handler's reading as
    at the gate's, the replacement is signed with the [id] the gate put in
    [REMOTE_USER]. *)
Theorem gated_refresh_keeps_string_id
        (s : Store) (id tokenString newTokenString : string)
        (token : Token SigningMethod) (f : float64) :
  gate_passes jwt_verify s id ->
  authHeader s = "Bearer " +:+ tokenString ->
  jwt_verify tokenString (Key (receiver s)) (clock s (reads s)) = OK token ->
  jwt_verify tokenString (Key (receiver s)) (clock s (1 + reads s)) = OK token ->
  index (Claims token) "orig_iat" = VFloat64 f ->
  answers_token s newTokenString
    (middlewareImpl jwt_verify (RefreshHandler jwt_GetSigningMethod jwt_sign jwt_verify) s) ->
  exists method,
    jwt_sign method
      (refresh_claims (VString id)
         (time.Unix (time.Add (clock s (3 + reads s)) (Timeout (receiver s))))
         (int64_of_float64 f))
      (Key (receiver s)) = OK newTokenString.
Proof.
  intros (token' & authorizator & (tokenString' & Hh' & Hv') & Hid & Ha & Hyes)
         Hh Hv Hv2 Hiat Hans.
  assert (tokenString' = tokenString) as -> by (rewrite Hh in Hh'; now injection Hh').
  assert (token' = token) as -> by congruence.
  rewrite (gate_after_verification _ s tokenString token Hh Hv), Hid, Ha, Hyes in Hans.
  set (s' := with_remote_user id _) in Hans.
  assert (Hver' : verifies jwt_verify s' token) by (exists tokenString; now split).
  destruct (refresh_answer_inv s' token f newTokenString Hver' Hiat Hans)
    as (method & _ & Hs & _).
  rewrite Hid in Hs. now exists method.
Qed.

(** ** More on bearer extraction *)

(** X19: the two errors of [parseToken]: a request without an
    Authorization header, or with an empty one, fails with
    [Auth header empty]; one whose header is not empty but is not [Bearer],
    a space and a remainder fails with [Invalid auth header]. *)
Theorem parseToken_errors (key : option (list Byte.byte)) (s : Store) :
  (authHeader s = "" ->
   parseToken jwt_verify key s = Return (Err "Auth header empty") s)
  /\ (authHeader s <> "" -> extraction_fails s ->
      parseToken jwt_verify key s = Return (Err "Invalid auth header") s).
Proof.
  unfold extraction_fails, authHeader, parseToken, bind, ret, request_Header_Get, errors_New.
  split.
  - intros ->. reflexivity.
  - intros Hne Hno. apply String.eqb_neq in Hne. rewrite Hne.
    destruct (SplitN_two (Header_Get (Header (request s)) "Authorization"))
      as [-> | (b & a & -> & Hh)]; [reflexivity|].
    cbn [length Nat.eqb andb nth].
    destruct (String.eqb b "Bearer") eqn:Hb; [|reflexivity].
    apply String.eqb_eq in Hb. subst b. now destruct (Hno a).
Qed.

(** ** From login to the gate *)

(** X20: a token that [LoginHandler] has just issued gets its bearer past
    the gate: presented under the same key before the second of its expiry,
    to a gate whose authorization callback accepts the user, it makes the
    gate invoke the wrapped handler with [REMOTE_USER] set to the user name
    of the login.  The codec of package jwt is taken to round-trip and the
    user name to be valid UTF-8. *)
Theorem login_token_passes_gate
        (handler : M unit) (s s2 : Store) (tokenString : string)
        (authorizator : string -> Request -> bool) :
  jwt_roundtrip jwt_GetSigningMethod jwt_sign jwt_verify ->
  symmetric (SigningAlgorithm (receiver s)) = true ->
  (forall login_vals,
     json_decode_login (Body (request s)) = OK login_vals ->
     utf8.ValidString (Username login_vals) = true) ->
  answers_token s tokenString (LoginHandler jwt_GetSigningMethod jwt_sign json_decode_login s) ->
  let exp := time.Unix (time.Add (clock s (reads s)) (Timeout (receiver s))) in
  - 2 ^ 53 <= exp <= 2 ^ 53 ->
  authHeader s2 = "Bearer " +:+ tokenString ->
  Key (receiver s2) = Key (receiver s) ->
  time.Unix (clock s2 (reads s2)) < exp ->
  Authorizator (receiver s2) = Some authorizator ->
  (forall userId, authorizator userId (request s2) = true) ->
  exists login_vals,
    json_decode_login (Body (request s)) = OK login_vals /\
    middlewareImpl jwt_verify handler s2
    = handler (with_remote_user (Username login_vals)
                 (advance 1 [Call_jwt_Parse tokenString;
                             Call_Authorizator (Username login_vals); Call_handler] s2)).
Proof.
  intros Hcodec Halg Hutf Hans exp Hexact Hh Hkey Hfresh Ha Hyes.
  destruct (login_token_claims s tokenString (clock s2 (reads s2)) Hcodec Halg Hans Hexact Hfresh)
    as (login_vals & token & Hd & Hv & Hc).
  rewrite <- Hkey in Hv.
  exists login_vals. split; [exact Hd|].
  rewrite (gate_after_verification handler s2 tokenString token Hh Hv).
  unfold index. rewrite Hc, lookup_fmap, login_claims_id. cbn.
  rewrite json_string_valid by now apply Hutf.
  now rewrite Ha, Hyes.
Qed.

End Properties.

(** ** The small world at work *)

Lemma map_peel (c : gmap string Value) (k : string) (v : Value) (n : nat) :
  c !! k = Some v -> size c = S n ->
  c = <[k := v]> (delete k c) /\ size (delete k c) = n.
Proof.
  intros Hk Hsz. split; [now rewrite insert_delete_id|].
  rewrite map_size_delete, Hk, Hsz. reflexivity.
Qed.

Lemma World_verify_fresh (t : ascii) (u : string) (key : option (list Byte.byte))
      (now : time.Time) :
  time.Unix now < World.exp ->
  World.verify (String t (String ":" u)) key now
  = if Ascii.eqb t "l" then
      OK (mkToken tt (<["exp" := VFloat64 (float64_of_int64 World.exp)]> {["id" := VString u]}))
    else if Ascii.eqb t "r" then
      OK (mkToken tt (<["orig_iat" := VFloat64 (float64_of_int64 World.orig_iat)]>
                        (<["exp" := VFloat64 (float64_of_int64 World.exp)]>
                           {["id" := VString u]})))
    else if Ascii.eqb t "n" then
      OK (mkToken tt {["exp" := VFloat64 (float64_of_int64 World.exp)]})
    else Err "signature is invalid".
Proof.
  intros Hnow. unfold World.verify.
  destruct (Z.leb_spec World.exp (time.Unix now)); [lia|reflexivity].
Qed.

Lemma World_roundtrip : jwt_roundtrip World.GetSigningMethod World.sign World.verify.
Proof.
  intros alg method key claims tokenString now e _ _ _ Hs Hexp Hnbf _ Hnow.
  unfold World.sign in Hs. rewrite Hexp in Hs.
  destruct (claims !! "id") as [[| |u| | | |]|] eqn:Hid; try discriminate.
  destruct (claims !! "orig_iat") as [[| | |o| | |]|] eqn:Ho; try discriminate;
    destruct (size claims) as [|[|[|[|?]]]] eqn:Hsz; try discriminate.
  - destruct (e =? World.exp) eqn:He; [|discriminate].
    destruct (o =? World.orig_iat) eqn:Hoe; [|discriminate].
    apply Z.eqb_eq in He, Hoe. subst e o. injection Hs as <-.
    change ("r:" +:+ json_string u) with (String "r" (String ":" (json_string u))).
    rewrite World_verify_fresh by exact Hnow. eexists. split; [reflexivity|].
    destruct (map_peel claims "orig_iat" _ _ Ho Hsz) as [Hc0 Hsz1].
    assert (Hexp1 : delete "orig_iat" claims !! "exp" = Some (VInt64 World.exp))
      by now rewrite lookup_delete_ne.
    destruct (map_peel _ "exp" _ _ Hexp1 Hsz1) as [Hc1 Hsz2].
    assert (Hid1 : delete "exp" (delete "orig_iat" claims) !! "id" = Some (VString u))
      by now rewrite !lookup_delete_ne.
    destruct (map_peel _ "id" _ _ Hid1 Hsz2) as [Hc2 Hsz3].
    apply map_size_empty_inv in Hsz3. rewrite Hc0, Hc1, Hc2, Hsz3.
    now rewrite !fmap_insert, fmap_empty, insert_empty.
  - destruct (e =? World.exp) eqn:He; [|discriminate].
    apply Z.eqb_eq in He. subst e. injection Hs as <-.
    change ("l:" +:+ json_string u) with (String "l" (String ":" (json_string u))).
    rewrite World_verify_fresh by exact Hnow. eexists. split; [reflexivity|].
    destruct (map_peel claims "exp" _ _ Hexp Hsz) as [Hc0 Hsz1].
    assert (Hid1 : delete "exp" claims !! "id" = Some (VString u))
      by now rewrite lookup_delete_ne.
    destruct (map_peel _ "id" _ _ Hid1 Hsz1) as [Hc1 Hsz2].
    apply map_size_empty_inv in Hsz2. rewrite Hc0, Hc1, Hsz2.
    now rewrite !fmap_insert, fmap_empty, insert_empty.
Qed.

Lemma World_stamp_signs (key : option (list Byte.byte)) : signs_everything World.stamp tt key.
Proof. intros claims. now exists "r:alice". Qed.

(** *** The gate *)

(** C1 does not hold as stated: the token of this request verifies and has
    no [id] claim, yet the gate does not answer with the unauthorized
    response (it panics). *)
Lemma gate_missing_id_is_not_rejected :
  let s := World.bearer_request (World.config 0 false) "Bearer n:alice" 1000 in
  let token := mkToken tt {["exp" := VFloat64 (float64_of_int64 World.exp)]} in
  verifies World.verify s token /\
  index (Claims token) "id" = VNil /\
  ~ answers_unauthorized s (middlewareImpl World.verify World.hello s).
Proof.
  intros s token. split; [|split].
  - exists "n:alice". split; reflexivity.
  - reflexivity.
  - intros (s' & Hrun & _). vm_compute in Hrun. discriminate Hrun.
Qed.

Lemma gate_identity_assertion_panics_witness :
  let s := World.bearer_request (World.config 0 false) "Bearer n:alice" 1000 in
  let token := mkToken tt {["exp" := VFloat64 (float64_of_int64 World.exp)]} in
  verifies World.verify s token /\
  (forall id, index (Claims token) "id" <> VString id) /\
  exists msg s',
    middlewareImpl World.verify World.hello s = Panic msg s' /\
    writer s' = writer s /\
    ~ In Call_handler (calls_since s (middlewareImpl World.verify World.hello s)) /\
    (forall id, ~ In (Call_Authorizator id)
                     (calls_since s (middlewareImpl World.verify World.hello s))).
Proof.
  intros s token.
  assert (Hv : verifies World.verify s token) by (exists "n:alice"; split; reflexivity).
  assert (Hid : forall id, index (Claims token) "id" <> VString id)
    by (intros id; vm_compute; discriminate).
  split; [exact Hv|]. split; [exact Hid|].
  exact (gate_identity_assertion_panics unit World.verify World.hello s token Hv Hid).
Defined.

Lemma gate_rejection_short_circuits_witness :
  let s := World.bearer_request (World.config 0 false) "Bearer l:mallory" 1000 in
  authorization_denied World.verify s /\
  answers_unauthorized s (middlewareImpl World.verify World.hello s) /\
  ~ In Call_handler (calls_since s (middlewareImpl World.verify World.hello s)) /\
  (forall handler', middlewareImpl World.verify handler' s
                    = middlewareImpl World.verify World.hello s).
Proof.
  intros s.
  assert (Hdenied : authorization_denied World.verify s).
  { exists (mkToken tt (<["exp" := VFloat64 (float64_of_int64 World.exp)]>
                          {["id" := VString "mallory"]})), "mallory", World.authorizator.
    split; [exists "l:mallory"; split; reflexivity|].
    repeat split; reflexivity. }
  split; [exact Hdenied|].
  apply (proj1 (gate_rejection_short_circuits unit World.verify World.hello s)).
  right. right. exact Hdenied.
Defined.

Lemma gate_mutates_only_request_env_witness :
  let s := World.bearer_request (World.config 0 false) "Bearer l:alice" 1000 in
  gate_passes World.verify s "alice" /\
  exists s',
    middlewareImpl World.verify World.hello s = World.hello s' /\
    receiver s' = receiver s /\
    writer s' = writer s /\
    request s' = set_Env "REMOTE_USER" (VString "alice") (request s).
Proof.
  intros s.
  assert (Hpass : gate_passes World.verify s "alice").
  { exists (mkToken tt (<["exp" := VFloat64 (float64_of_int64 World.exp)]>
                          {["id" := VString "alice"]})), World.authorizator.
    split; [exists "l:alice"; split; reflexivity|].
    repeat split; reflexivity. }
  split; [exact Hpass|].
  apply (proj1 (gate_mutates_only_request_env unit World.verify World.hello s) "alice" Hpass).
Defined.

(** The scenario of a login followed by a gated request: alice logs in and
    gets a token; the request that presents it reaches the wrapped handler
    with [REMOTE_USER] set to alice. *)
Lemma login_then_gated_request :
  let login := World.login_request 0 in
  let s := World.bearer_request (World.config 0 false) "Bearer l:alice" 1001 in
  writer (final (LoginHandler World.GetSigningMethod World.sign World.decode_login login))
  = [WriteJson {["token" := "l:alice"]}] /\
  writer (final (middlewareImpl World.verify World.hello s))
  = [WriteJson {["hello" := "alice"]}] /\
  Env (request (final (middlewareImpl World.verify World.hello s)))
  = {["REMOTE_USER" := VString "alice"]} /\
  trace (final (middlewareImpl World.verify World.hello s))
  = [Call_jwt_Parse "l:alice"; Call_Authorizator "alice"; Call_handler].
Proof. repeat split; vm_compute; reflexivity. Qed.

(** *** Bearer extraction *)

(** C5 does not hold as stated: a header of three space-separated words is
    not rejected, its remainder after the first space goes to the verifier;
    so does the empty remainder of a header that ends after the space. *)
Lemma bearer_with_spaces_reaches_verifier :
  let s := World.bearer_request (World.config 0 false) "Bearer a b" 1000 in
  let s' := World.bearer_request (World.config 0 false) "Bearer " 1000 in
  calls_since s (parseToken World.verify World.key s) = [Call_jwt_Parse "a b"] /\
  calls_since s' (parseToken World.verify World.key s') = [Call_jwt_Parse ""].
Proof. split; reflexivity. Qed.

Lemma bearer_extraction_witness :
  let s := World.bearer_request (World.config 0 false) "Basic YWxpY2U6c2VjcmV0" 1000 in
  extraction_fails s /\
  exists e, parseToken World.verify World.key s = Return (Err e) s.
Proof.
  intros s.
  assert (Hx : extraction_fails s) by (intros tokenString; vm_compute; discriminate).
  split; [exact Hx|].
  apply (proj1 (proj2 (bearer_extraction unit World.verify World.key s)) Hx).
Defined.

(** *** The unauthorized response *)

(** C8 does not hold as stated: the realm in the challenge header is not
    put between quotation marks. *)
Lemma unauthorized_realm_is_not_quoted :
  let s := World.bearer_request (World.config 0 true) "" 1000 in
  writer (final (unauthorized s))
  = [Header_Set "WWW-Authenticate" "Basic realm=api"; rest_Error "Not Authorized" 401] /\
  ~ In (Header_Set "WWW-Authenticate" ("Basic realm=" +:+ dquote +:+ "api" +:+ dquote))
       (writer (final (unauthorized s))).
Proof.
  split; [reflexivity|]. no_such_call.
Qed.

(** *** Start-up *)

Lemma World_hello_keeps_receiver : keeps_receiver World.hello.
Proof.
  intros s. unfold World.hello.
  destruct (index (Env (request s)) "REMOTE_USER"); reflexivity.
Qed.

(** C7 does not hold as stated: under a configuration without realm and
    key, which [MiddlewareFunc] refuses, [LoginHandler] and
    [RefreshHandler] serve their requests all the same and answer with a
    token. *)
Lemma handlers_serve_unvalidated_configuration :
  let login := World.store World_unvalidated_config (World.req [] "alice:secret") 1000 in
  let refresh := World.store World_unvalidated_config (World.req ["Bearer r:alice"] "") 1000 in
  required_missing World_unvalidated_config /\
  (exists msg s', MiddlewareFunc World.verify World.hello login = Fatal msg s') /\
  answers_token login "r:alice"
    (LoginHandler World.GetSigningMethod World.sign World.decode_login login) /\
  answers_token refresh "r:alice"
    (RefreshHandler World.GetSigningMethod World.sign World.verify refresh).
Proof.
  intros login refresh. split; [left; reflexivity|]. split; [|split].
  - do 2 eexists. reflexivity.
  - eexists. split; vm_compute; reflexivity.
  - eexists. split; vm_compute; reflexivity.
Qed.

Lemma startup_validation_is_fatal_witness :
  let mw := {| Realm := "api"; SigningAlgorithm := ""; Key := None; Timeout := 0;
               MaxRefresh := 0; Authenticator := Some World.authenticator;
               Authorizator := None; NeedPrompt := false |} in
  let s := World.store mw (World.req [] "") 1000 in
  let start := World.store (World.config 0 false) (World.req [] "") 1000 in
  let served := final (LoginHandler World.GetSigningMethod World.sign World.decode_login
                         (World.login_request 0)) in
  (required_missing (receiver s) /\
   (exists msg s', MiddlewareFunc World.verify World.hello s = Fatal msg s') /\
   (forall s',
      ~ serves World.GetSigningMethod World.sign World.verify World.decode_login
          World.hello s s')) /\
  (serves World.GetSigningMethod World.sign World.verify World.decode_login
     World.hello start served /\
   writer served = [WriteJson {["token" := "l:alice"]}] /\
   required_present (receiver served) /\
   Realm (receiver served) = "api" /\
   Key (receiver served) = World.key /\
   Authenticator (receiver served) = Some World.authenticator).
Proof.
  intros mw s start served. split.
  - assert (Hmissing : required_missing (receiver s)) by (right; left; reflexivity).
    split; [exact Hmissing|].
    exact (proj1 (startup_validation_is_fatal unit World.GetSigningMethod World.sign
                    World.verify World.decode_login World.hello s) Hmissing).
  - assert (Hserved : serves World.GetSigningMethod World.sign World.verify
                        World.decode_login World.hello start served).
    { apply serves_login.
      apply (serves_arrival _ _ _ _ _ _ _ start [] (World.req [] "alice:secret")
               (World.clock_from 1000) 0%nat []).
      apply (serves_started _ _ _ _ _ _ _ (middlewareImpl World.verify World.hello)).
      reflexivity. }
    split; [exact Hserved|]. split; [reflexivity|].
    exact (proj1 (proj2 (proj2 (startup_validation_is_fatal unit World.GetSigningMethod
                                  World.sign World.verify World.decode_login
                                  World.hello start)))
             World_hello_keeps_receiver served Hserved).
Defined.

(** The validation looks for a nil key: an empty key that is not nil counts
    as present, and so does a configuration that leaves every optional
    field out. *)
Lemma MiddlewareFunc_accepts_empty_key :
  let mw := {| Realm := "api"; SigningAlgorithm := ""; Key := Some []; Timeout := 0;
               MaxRefresh := 0; Authenticator := Some World.authenticator;
               Authorizator := None; NeedPrompt := false |} in
  let s := World.store mw (World.req [] "") 1000 in
  exists gate s',
    MiddlewareFunc World.verify World.hello s = Return gate s' /\
    SigningAlgorithm (receiver s') = "HS256" /\
    Timeout (receiver s') = time.Hour /\
    Key (receiver s') = Some [].
Proof. do 2 eexists. split; [reflexivity|]. repeat split. Qed.

(** *** Refreshing and logging in *)


Lemma refresh_carries_claims_witness :
  let s := World.bearer_request (World.config (5 * time.Second) false) "Bearer r:alice" 1000 in
  answers_token s "r:alice" (RefreshHandler World.GetSigningMethod World.sign World.verify s) /\
  exists method claims,
    World.GetSigningMethod "HS256" = Some method /\
    World.sign method claims World.key = OK "r:alice" /\
    In (Call_SignedString claims)
       (calls_since s (RefreshHandler World.GetSigningMethod World.sign World.verify s)) /\
    index claims "id" = VString "alice" /\
    index claims "orig_iat" = VInt64 1000 /\
    index claims "exp" = VInt64 4600 /\
    (forall k, time.Hour = k * time.Second -> index claims "exp" = VInt64 (1000 + k)).
Proof.
  intros s.
  pose (token := mkToken tt (<["orig_iat" := VFloat64 (float64_of_int64 World.orig_iat)]>
                               (<["exp" := VFloat64 (float64_of_int64 World.exp)]>
                                  {["id" := VString "alice"]}))).
  assert (Hans : answers_token s "r:alice"
                   (RefreshHandler World.GetSigningMethod World.sign World.verify s))
    by (eexists; split; vm_compute; reflexivity).
  assert (Hv : verifies World.verify s token)
    by (exists "r:alice"; split; reflexivity).
  split; [exact Hans|].
  exact (refresh_carries_claims unit World.GetSigningMethod World.sign World.verify s
           token (float64_of_int64 World.orig_iat) "r:alice" Hv eq_refl Hans).
Defined.

Lemma refresh_orig_iat_assertion_panics_witness :
  let login := World.login_request 0 in
  let s := World.bearer_request (World.config 0 false) "Bearer l:alice" 1001 in
  answers_token login "l:alice"
    (LoginHandler World.GetSigningMethod World.sign World.decode_login login) /\
  exists msg s',
    RefreshHandler World.GetSigningMethod World.sign World.verify s = Panic msg s' /\
    writer s' = writer s /\
    ~ answers_unauthorized s (RefreshHandler World.GetSigningMethod World.sign World.verify s).
Proof.
  intros login s. split.
  - eexists; split; vm_compute; reflexivity.
  - apply (refresh_orig_iat_assertion_panics unit World.GetSigningMethod World.sign World.verify s
             (mkToken tt (<["exp" := VFloat64 (float64_of_int64 World.exp)]>
                            {["id" := VString "alice"]}))).
    + exists "l:alice". split; reflexivity.
    + intros f. vm_compute. discriminate.
Defined.

Lemma login_token_verifies_witness :
  let login := World.login_request 0 in
  let s2 := World.bearer_request (World.config 0 false) "Bearer l:alice" 1001 in
  answers_token login "l:alice"
    (LoginHandler World.GetSigningMethod World.sign World.decode_login login) /\
  exists login_vals token,
    World.decode_login "alice:secret" = OK login_vals /\
    parseToken World.verify World.key s2
    = Return (OK token) (advance 1 [Call_jwt_Parse "l:alice"] s2) /\
    index (Claims token) "id" = VString (Username login_vals) /\
    index (Claims token) "exp" = VFloat64 (float64_of_int64 4600) /\
    int64_of_float64 (float64_of_int64 4600) = 4600 /\
    4600 * time.Second <= 1000 * time.Second + time.Hour < 4601 * time.Second.
Proof.
  intros login s2.
  assert (Hans : answers_token login "l:alice"
                   (LoginHandler World.GetSigningMethod World.sign World.decode_login login))
    by (eexists; split; vm_compute; reflexivity).
  assert (Hutf : forall login_vals,
             World.decode_login (Body (request login)) = OK login_vals ->
             utf8.ValidString (Username login_vals) = true)
    by (intros login_vals H; injection H as <-; reflexivity).
  split; [exact Hans|].
  exact (login_token_verifies unit World.GetSigningMethod World.sign World.verify
           World.decode_login login s2 "l:alice" World_roundtrip eq_refl Hutf Hans
           ltac:(vm_compute; split; discriminate) eq_refl eq_refl eq_refl).
Defined.

(** ** Splitting and joining *)

Lemma genSplit_cons (cuts : nat) (s sep : string) :
  exists part parts, strings.genSplit cuts s sep = part :: parts.
Proof.
  destruct cuts as [|k]; cbn; [eauto|].
  destruct (strings.Cut s sep) as [[b a]|]; eauto.
Qed.

Lemma genSplit_Join (cuts : nat) (s sep : string) :
  strings.Join (strings.genSplit cuts s sep) sep = s.
Proof.
  revert s. induction cuts as [|k IH]; intros s; cbn [strings.genSplit]; [reflexivity|].
  destruct (strings.Cut s sep) as [[b a]|] eqn:Hc; [|reflexivity].
  destruct (genSplit_cons k a sep) as (part & parts & Hg).
  specialize (IH a). rewrite Hg in IH |- *.
  cbn [strings.Join] in IH |- *. rewrite IH.
  symmetry. now apply Cut_Some.
Qed.

Lemma genSplit_length (cuts : nat) (s sep : string) :
  (1 <= length (strings.genSplit cuts s sep) <= S cuts)%nat.
Proof.
  revert s. induction cuts as [|k IH]; intros s; cbn [strings.genSplit]; [cbn; lia|].
  destruct (strings.Cut s sep) as [[b a]|]; [|cbn; lia].
  specialize (IH a). cbn [length]. lia.
Qed.

(** X21: [strings.SplitN] loses no text: for a non-empty separator and a
    count other than 0, joining
    the parts with the separator gives the string back; and for a positive
    count [n] there are at least one and at most [n] parts.  So the two
    parts [parseToken] asks for are the header, cut at its first space. *)
Theorem SplitN_Join (s sep : string) (n : Z) :
  sep <> "" ->
  n <> 0 ->
  strings.Join (strings.SplitN s sep n) sep = s /\
  (0 < n -> 1 <= Z.of_nat (length (strings.SplitN s sep n)) <= n).
Proof.
  intros _ Hn. unfold strings.SplitN.
  destruct (Z.eqb_spec n 0) as [|_]; [contradiction|].
  destruct (Z.ltb_spec n 0) as [Hneg|Hpos].
  - split; [apply genSplit_Join|lia].
  - split; [apply genSplit_Join|]. intros _.
    pose proof (genSplit_length (Z.to_nat (n - 1)) s sep). lia.
Qed.

(** X24: a count of seconds up to [2 ^ 53] in magnitude that is stored
    in a claim as an integer, as [LoginHandler] and [RefreshHandler] store
    [exp] and [orig_iat], comes back from JSON as a [float64] that the
    conversion of [RefreshHandler] turns into the same integer. *)
Theorem claim_seconds_survive_json (z : Z) :
  - 2 ^ 53 <= z <= 2 ^ 53 ->
  exists f, json_roundtrip (VInt64 z) = VFloat64 f /\ int64_of_float64 f = z.
Proof.
  intros Hz. exists (float64_of_int64 z). split; [reflexivity|].
  now apply int64_float64_exact.
Qed.

(** An encoding that [utf8.DecodeRuneInString] accepts is still accepted
    when what follows it has been through JSON. *)
Lemma json_string_from_head (c : ascii) (rest : string) (k : nat) :
  utf8.DecodeRuneInString (String c rest) = Some (S k) ->
  utf8.DecodeRuneInString (String c (json_string_from k rest)) = Some (S k).
Proof.
  unfold utf8.DecodeRuneInString.
  destruct (utf8.between 0 127 c); [intros H; injection H as <-; reflexivity|].
  destruct (utf8.between 194 223 c).
  { destruct rest as [|c1 r]; [discriminate|].
    destruct (utf8.continues c1) eqn:H1; [|discriminate].
    intros H; injection H as <-. cbn [json_string_from]. now rewrite H1. }
  destruct (utf8.between 224 239 c).
  { destruct rest as [|c1 [|c2 r]]; try discriminate.
    destruct (_ && _) eqn:H1; [|discriminate].
    intros H; injection H as <-. cbn [json_string_from]. now rewrite H1. }
  destruct (utf8.between 240 244 c); [|discriminate].
  destruct rest as [|c1 [|c2 [|c3 r]]]; try discriminate.
  destruct (_ && _) eqn:H1; [|discriminate].
  intros H; injection H as <-. cbn [json_string_from]. now rewrite H1.
Qed.

Lemma json_string_from_is_valid (s : string) (pending : nat) :
  utf8.valid_from pending (json_string_from pending s) = true.
Proof.
  revert pending. induction s as [|c s IH]; intros pending; [now destruct pending|].
  destruct pending as [|k]; cbn [json_string_from]; [|apply IH].
  destruct (utf8.DecodeRuneInString (String c s)) as [[|k]|] eqn:Hd;
    try (change (utf8.valid_from 0 (json_string_from 0 s) = true); apply IH).
  cbn [utf8.valid_from]. rewrite (json_string_from_head _ _ _ Hd). apply IH.
Qed.


(** Every byte that starts no valid encoding is replaced by U+FFFD on its
    own: a lone [0xFF]; a euro sign cut short after two bytes; a euro sign
    whole, which stays; the surrogate U+D800 written out in three bytes. *)
Lemma json_string_replaces_stray_bytes :
  bytes_of_string (json_string (string_of_bytes [0xFF]%N)) = [0xEF; 0xBF; 0xBD]%N /\
  bytes_of_string (json_string (string_of_bytes [0x61; 0xE2; 0x82]%N))
  = [0x61; 0xEF; 0xBF; 0xBD; 0xEF; 0xBF; 0xBD]%N /\
  bytes_of_string (json_string (string_of_bytes [0x61; 0xE2; 0x82; 0xAC]%N))
  = [0x61; 0xE2; 0x82; 0xAC]%N /\
  bytes_of_string (json_string (string_of_bytes [0xED; 0xA0; 0x80]%N))
  = [0xEF; 0xBF; 0xBD; 0xEF; 0xBF; 0xBD; 0xEF; 0xBF; 0xBD]%N.
Proof. repeat split. Qed.

(** ** The added properties at work *)

Lemma MiddlewareFunc_fills_defaults_witness :
  let s := World.store World_bare_config (World.req [] "") 1000 in
  required_present (receiver s) /\
  exists s',
    MiddlewareFunc World.verify World.hello s
    = Return (middlewareImpl World.verify World.hello) s' /\
    SigningAlgorithm (receiver s') = "HS256" /\
    Timeout (receiver s') = time.Hour /\
    exists f, Authorizator (receiver s') = Some f /\ forall id r, f id r = true.
Proof.
  intros s.
  assert (Hp : required_present (receiver s)) by (repeat split; discriminate).
  split; [exact Hp|].
  destruct (MiddlewareFunc_fills_defaults unit World.verify World.hello s Hp)
    as (s' & Hrun & _ & Halg & _ & Ht & _ & Hz & _).
  exists s'. split; [exact Hrun|]. split; [now apply Halg|]. split; [now apply Ht|].
  now apply Hz.
Defined.

Lemma MiddlewareFunc_idempotent_witness :
  let s := World.store World_bare_config (World.req [] "") 1000 in
  let s' := final (MiddlewareFunc World.verify World.hello s) in
  MiddlewareFunc World.verify World.hello s
  = Return (middlewareImpl World.verify World.hello) s' /\
  MiddlewareFunc World.verify (ret tt) s' = Return (middlewareImpl World.verify (ret tt)) s'.
Proof.
  intros s s'.
  assert (Hrun : MiddlewareFunc World.verify World.hello s
                 = Return (middlewareImpl World.verify World.hello) s') by reflexivity.
  split; [exact Hrun|].
  exact (MiddlewareFunc_idempotent unit World.verify World.hello (ret tt) _ s s' Hrun).
Defined.

Lemma MiddlewareFunc_fatal_message_witness :
  let mw := {| Realm := "api"; SigningAlgorithm := ""; Key := None; Timeout := 0;
               MaxRefresh := 0; Authenticator := None;
               Authorizator := None; NeedPrompt := false |} in
  let s := World.store mw (World.req [] "") 1000 in
  exists s', MiddlewareFunc World.verify World.hello s = Fatal "Key required" s'.
Proof.
  intros mw s.
  apply (proj1 (proj2 (MiddlewareFunc_fatal_message unit World.verify World.hello s))).
  - discriminate.
  - reflexivity.
Defined.

Lemma default_authorization_lets_everybody_pass_witness :
  let s0 := World.store World_bare_config (World.req [] "") 1000 in
  let s1 := final (MiddlewareFunc World.verify World.hello s0) in
  let s := World.bearer_request (receiver s1) "Bearer l:mallory" 1000 in
  exists tokenString,
    middlewareImpl World.verify World.hello s
    = World.hello (with_remote_user "mallory"
                     (advance 1 [Call_jwt_Parse tokenString; Call_Authorizator "mallory";
                                 Call_handler] s)).
Proof.
  intros s0 s1 s.
  apply (default_authorization_lets_everybody_pass unit World.verify World.hello
           (middlewareImpl World.verify World.hello) s0 s1 s
           (mkToken tt (<["exp" := VFloat64 (float64_of_int64 World.exp)]>
                          {["id" := VString "mallory"]}))
           "mallory").
  - reflexivity.
  - reflexivity.
  - reflexivity.
  - exists "l:mallory". split; reflexivity.
  - reflexivity.
Defined.

Lemma World_bearer_verifies (mw : JWTMiddleware) (tokenString : string) (t0 : Z)
      (token : Token unit) :
  verifies World.verify (World.bearer_request mw ("Bearer " +:+ tokenString) t0) token ->
  World.verify tokenString (Key mw) (World.clock_from t0 0) = OK token.
Proof.
  intros (tokenString' & Hh & Hv).
  assert (Hh' : "Bearer " +:+ tokenString = "Bearer " +:+ tokenString').
  { rewrite <- Hh. unfold authHeader, World.bearer_request, World.store, World.req.
    cbn [request Header]. unfold Header_Get. now rewrite lookup_singleton_eq. }
  assert (tokenString = tokenString') as -> by now injection Hh'.
  exact Hv.
Qed.

Lemma gate_with_string_ids_does_not_panic_witness :
  let s := World.bearer_request (World.config 0 false) "Bearer l:alice" 1000 in
  (answers_unauthorized s (middlewareImpl World.verify World.hello s) /\
   ~ In Call_handler (calls_since s (middlewareImpl World.verify World.hello s)))
  \/ (exists id s',
        gate_passes World.verify s id /\
        middlewareImpl World.verify World.hello s = World.hello s').
Proof.
  intros s.
  apply (gate_with_string_ids_does_not_panic unit World.verify World.hello s).
  - discriminate.
  - intros token Hver.
    apply (World_bearer_verifies (World.config 0 false) "l:alice" 1000) in Hver.
    vm_compute in Hver. injection Hver as <-. now exists "alice".
Defined.

Lemma configured_login_answers_once_witness :
  let s := World.login_request 0 in
  let o := LoginHandler World.GetSigningMethod World.sign World.decode_login s in
  (answers_unauthorized s o \/ exists tokenString, answers_token s tokenString o) /\
  ~ (answers_unauthorized s o /\ exists tokenString, answers_token s tokenString o) /\
  request (final o) = request s.
Proof.
  intros s.
  apply (configured_login_answers_once unit World.GetSigningMethod World.sign
           World.decode_login s); discriminate.
Defined.

Lemma login_answers_token_iff_witness :
  let s := World.login_request 0 in
  answers_token s "l:alice"
    (LoginHandler World.GetSigningMethod World.sign World.decode_login s).
Proof.
  intros s.
  apply (proj2 (login_answers_token_iff unit World.GetSigningMethod World.sign
                  World.decode_login s "l:alice")).
  exists (mkLogin "alice" "secret"), World.authenticator, tt.
  repeat split; vm_compute; reflexivity.
Defined.

Lemma login_refusals_witness :
  let s := World.store (World.config 0 false) (World.req [] "alice:guess") 1000 in
  let o := LoginHandler World.GetSigningMethod World.sign World.decode_login s in
  answers_unauthorized s o /\
  calls_since s o = [Call_Authenticator "alice" "guess"] /\
  reads (final o) = reads s.
Proof.
  intros s.
  apply (proj2 (login_refusals unit World.GetSigningMethod World.sign World.decode_login s)
           (mkLogin "alice" "guess") World.authenticator); reflexivity.
Defined.

Lemma login_claims_shape_witness :
  let s := World.login_request (5 * time.Second) in
  answers_token s "r:alice"
    (LoginHandler World.GetSigningMethod World.sign World.decode_login s) /\
  exists claims,
    In (Call_SignedString claims)
       (calls_since s (LoginHandler World.GetSigningMethod World.sign World.decode_login s)) /\
    dom claims = {["id"; "exp"; "orig_iat"]} /\
    claims !! "orig_iat" = Some (VInt64 1000).
Proof.
  intros s.
  assert (Hans : answers_token s "r:alice"
                   (LoginHandler World.GetSigningMethod World.sign World.decode_login s))
    by (eexists; split; vm_compute; reflexivity).
  split; [exact Hans|].
  destruct (login_claims_shape unit World.GetSigningMethod World.sign World.decode_login
              s "r:alice" Hans) as (claims & Hcall & _ & Hrefresh).
  exists claims. split; [exact Hcall|]. apply Hrefresh. discriminate.
Defined.

Lemma refresh_refuses_unverified_witness :
  let s := World.bearer_request (World.config (5 * time.Second) false)
             "Basic YWxpY2U6c2VjcmV0" 1000 in
  let o := RefreshHandler World.GetSigningMethod World.sign World.verify s in
  extraction_fails s /\
  answers_unauthorized s o /\
  forall claims, ~ In (Call_SignedString claims) (calls_since s o).
Proof.
  intros s.
  assert (Hx : extraction_fails s) by (intros tokenString; vm_compute; discriminate).
  split; [exact Hx|].
  exact (refresh_refuses_unverified unit World.GetSigningMethod World.sign World.verify s
           (or_introl Hx)).
Defined.

Lemma configured_refresh_answers_once_witness :
  let s := World.bearer_request (World.config (5 * time.Second) false) "Bearer r:alice" 1000 in
  let o := RefreshHandler World.GetSigningMethod World.sign World.verify s in
  (answers_unauthorized s o \/ exists tokenString, answers_token s tokenString o) /\
  ~ (answers_unauthorized s o /\ exists tokenString, answers_token s tokenString o).
Proof.
  intros s.
  apply (configured_refresh_answers_once unit World.GetSigningMethod World.sign World.verify s).
  - discriminate.
  - intros token Hver.
    apply (World_bearer_verifies (World.config (5 * time.Second) false) "r:alice" 1000)
      in Hver.
    vm_compute in Hver. injection Hver as <-. eexists. reflexivity.
Defined.

Lemma refresh_claims_are_three_witness :
  let s := World.bearer_request (World.config (5 * time.Second) false) "Bearer r:alice" 1000 in
  exists token claims,
    verifies World.verify s token /\
    In (Call_SignedString claims)
       (calls_since s (RefreshHandler World.GetSigningMethod World.sign World.verify s)) /\
    dom claims = {["id"; "exp"; "orig_iat"]} /\
    claims !! "id" = Some (index (Claims token) "id").
Proof.
  intros s.
  apply (refresh_claims_are_three unit World.GetSigningMethod World.sign World.verify
           s "r:alice").
  eexists; split; vm_compute; reflexivity.
Defined.

Lemma refresh_validity_bound_witness :
  let s := World.bearer_request (World.config (5 * time.Second) false) "Bearer r:alice" 1000 in
  4600 * time.Second
  < (1000 + 1) * time.Second + 5 * time.Second + time.Hour + 1000000.
Proof.
  intros s.
  pose (token := mkToken tt (<["orig_iat" := VFloat64 (float64_of_int64 World.orig_iat)]>
                               (<["exp" := VFloat64 (float64_of_int64 World.exp)]>
                                  {["id" := VString "alice"]}))).
  assert (Hv : verifies World.verify s token) by (exists "r:alice"; split; reflexivity).
  assert (Hrange : int64_min < MaxRefresh (receiver s) <= int64_max)
    by (vm_compute; split; [reflexivity|discriminate]).
  assert (Hans : answers_token s "r:alice"
                   (RefreshHandler World.GetSigningMethod World.sign World.verify s))
    by (eexists; split; vm_compute; reflexivity).
  exact (refresh_validity_bound unit World.GetSigningMethod World.sign World.verify s
           token (float64_of_int64 World.orig_iat) "r:alice" Hv eq_refl Hrange Hans).
Defined.

Lemma refresh_window_stays_closed_witness :
  let s := World.bearer_request (World.config (5 * time.Second) false) "Bearer r:alice" 1006 in
  let o := RefreshHandler World.GetSigningMethod World.stamp World.verify s in
  answers_unauthorized s o /\
  forall claims, ~ In (Call_SignedString claims) (calls_since s o).
Proof.
  intros s.
  apply (refresh_window_stays_closed unit World.GetSigningMethod World.stamp World.verify s
           (mkToken tt (<["orig_iat" := VFloat64 (float64_of_int64 World.orig_iat)]>
                          (<["exp" := VFloat64 (float64_of_int64 World.exp)]>
                             {["id" := VString "alice"]})))
           (float64_of_int64 World.orig_iat) (1006 * time.Second)).
  - exists "r:alice". split; reflexivity.
  - reflexivity.
  - vm_compute. discriminate.
  - vm_compute. reflexivity.
Defined.

Lemma refresh_chain_keeps_issue_time_witness :
  let s := World.bearer_request (World.config (5 * time.Second) false) "Bearer r:alice" 1000 in
  exists method,
    World.sign method (refresh_claims (VString "alice") 4600 1000) World.key = OK "r:alice".
Proof.
  intros s.
  pose (token := mkToken tt (<["orig_iat" := VFloat64 (float64_of_int64 World.orig_iat)]>
                               (<["exp" := VFloat64 (float64_of_int64 World.exp)]>
                                  {["id" := VString "alice"]}))).
  assert (Hv : verifies World.verify s token) by (exists "r:alice"; split; reflexivity).
  assert (Hans : answers_token s "r:alice"
                   (RefreshHandler World.GetSigningMethod World.sign World.verify s))
    by (eexists; split; vm_compute; reflexivity).
  exact (refresh_chain_keeps_issue_time unit World.GetSigningMethod World.sign World.verify
           s s token (float64_of_int64 World.orig_iat) "r:alice" "r:alice"
           World_roundtrip eq_refl Hv eq_refl eq_refl Hans
           ltac:(vm_compute; split; discriminate) ltac:(vm_compute; split; discriminate)
           eq_refl eq_refl eq_refl Hans).
Defined.

Lemma gated_refresh_rechecks_witness :
  let s := World_expiring_request in
  let o := middlewareImpl World.verify
             (RefreshHandler World.GetSigningMethod World.sign World.verify) s in
  gate_passes World.verify s "alice" /\
  answers_unauthorized s o /\
  forall claims, ~ In (Call_SignedString claims) (calls_since s o).
Proof.
  intros s.
  assert (Hpass : gate_passes World.verify s "alice").
  { exists (mkToken tt (<["orig_iat" := VFloat64 (float64_of_int64 World.orig_iat)]>
                          (<["exp" := VFloat64 (float64_of_int64 World.exp)]>
                             {["id" := VString "alice"]}))), World.authorizator.
    split; [exists "r:alice"; split; reflexivity|].
    repeat split; reflexivity. }
  split; [exact Hpass|].
  exact (gated_refresh_rechecks unit World.GetSigningMethod World.sign World.verify s
           "alice" "r:alice" "token is expired" Hpass eq_refl eq_refl).
Defined.

Lemma gated_refresh_keeps_string_id_witness :
  let s := World.bearer_request (World.config (5 * time.Second) false) "Bearer r:alice" 1000 in
  exists method,
    World.sign method (refresh_claims (VString "alice") 4600 1000) World.key = OK "r:alice".
Proof.
  intros s.
  pose (token := mkToken tt (<["orig_iat" := VFloat64 (float64_of_int64 World.orig_iat)]>
                               (<["exp" := VFloat64 (float64_of_int64 World.exp)]>
                                  {["id" := VString "alice"]}))).
  assert (Hpass : gate_passes World.verify s "alice").
  { exists token, World.authorizator.
    split; [exists "r:alice"; split; reflexivity|].
    repeat split; reflexivity. }
  assert (Hans : answers_token s "r:alice"
                   (middlewareImpl World.verify
                      (RefreshHandler World.GetSigningMethod World.sign World.verify) s))
    by (eexists; split; vm_compute; reflexivity).
  exact (gated_refresh_keeps_string_id unit World.GetSigningMethod World.sign World.verify
           s "alice" "r:alice" "r:alice" token (float64_of_int64 World.orig_iat)
           Hpass eq_refl eq_refl eq_refl eq_refl Hans).
Defined.

Lemma parseToken_errors_witness :
  let s := World.store (World.config 0 false) (World.req [] "") 1000 in
  let s' := World.bearer_request (World.config 0 false) "bearer l:alice" 1000 in
  parseToken World.verify World.key s = Return (Err "Auth header empty") s /\
  parseToken World.verify World.key s' = Return (Err "Invalid auth header") s'.
Proof.
  intros s s'. split.
  - apply (proj1 (parseToken_errors unit World.verify World.key s)). reflexivity.
  - apply (proj2 (parseToken_errors unit World.verify World.key s')).
    + vm_compute. discriminate.
    + intros tokenString. vm_compute. discriminate.
Defined.

Lemma login_token_passes_gate_witness :
  let login := World.login_request 0 in
  let s2 := World.bearer_request World_open_config "Bearer l:alice" 1001 in
  exists login_vals,
    World.decode_login "alice:secret" = OK login_vals /\
    middlewareImpl World.verify World.hello s2
    = World.hello (with_remote_user (Username login_vals)
                     (advance 1 [Call_jwt_Parse "l:alice";
                                 Call_Authorizator (Username login_vals); Call_handler] s2)).
Proof.
  intros login s2.
  assert (Hans : answers_token login "l:alice"
                   (LoginHandler World.GetSigningMethod World.sign World.decode_login login))
    by (eexists; split; vm_compute; reflexivity).
  assert (Hutf : forall login_vals,
             World.decode_login (Body (request login)) = OK login_vals ->
             utf8.ValidString (Username login_vals) = true)
    by (intros login_vals H; injection H as <-; reflexivity).
  exact (login_token_passes_gate unit World.GetSigningMethod World.sign World.verify
           World.decode_login World.hello login s2 "l:alice" (fun _ _ => true)
           World_roundtrip eq_refl Hutf Hans ltac:(vm_compute; split; discriminate)
           eq_refl eq_refl eq_refl eq_refl (fun _ => eq_refl)).
Defined.

Lemma SplitN_Join_witness :
  strings.Join (strings.SplitN "Bearer a b" " " 2) " " = "Bearer a b" /\
  (0 < 2 -> 1 <= Z.of_nat (length (strings.SplitN "Bearer a b" " " 2)) <= 2).
Proof. apply (SplitN_Join "Bearer a b" " " 2); discriminate. Defined.

Lemma session_keeps_issue_time_witness :
  let login := World.login_request (5 * time.Second) in
  let s2 := World.bearer_request (World.config (5 * time.Second) false) "Bearer r:alice" 1000 in
  exists login_vals method,
    World.decode_login "alice:secret" = OK login_vals /\
    World.sign method (refresh_claims (VString (Username login_vals)) 4600 1000) World.key
    = OK "r:alice".
Proof.
  intros login s2.
  assert (Hans : answers_token login "r:alice"
                   (LoginHandler World.GetSigningMethod World.sign World.decode_login login))
    by (eexists; split; vm_compute; reflexivity).
  assert (Hutf : forall login_vals,
             World.decode_login (Body (request login)) = OK login_vals ->
             utf8.ValidString (Username login_vals) = true)
    by (intros login_vals H; injection H as <-; reflexivity).
  assert (Hans2 : answers_token s2 "r:alice"
                    (RefreshHandler World.GetSigningMethod World.sign World.verify s2))
    by (eexists; split; vm_compute; reflexivity).
  exact (session_keeps_issue_time unit World.GetSigningMethod World.sign World.verify
           World.decode_login login s2 "r:alice" "r:alice" World_roundtrip eq_refl Hutf
           ltac:(vm_compute; discriminate) Hans
           ltac:(vm_compute; split; discriminate) ltac:(vm_compute; split; discriminate)
           eq_refl eq_refl eq_refl Hans2).
Defined.

Lemma login_without_refresh_cannot_refresh_witness :
  let login := World.login_request 0 in
  let s2 := World.bearer_request (World.config 0 false) "Bearer l:alice" 1001 in
  exists msg s',
    RefreshHandler World.GetSigningMethod World.sign World.verify s2 = Panic msg s' /\
    writer s' = writer s2.
Proof.
  intros login s2.
  assert (Hans : answers_token login "l:alice"
                   (LoginHandler World.GetSigningMethod World.sign World.decode_login login))
    by (eexists; split; vm_compute; reflexivity).
  exact (login_without_refresh_cannot_refresh unit World.GetSigningMethod World.sign
           World.verify World.decode_login login s2 "l:alice" World_roundtrip eq_refl
           eq_refl Hans ltac:(vm_compute; split; discriminate) eq_refl eq_refl eq_refl).
Defined.

Lemma claim_seconds_survive_json_witness :
  - 2 ^ 53 <= 1700000000 <= 2 ^ 53 /\
  exists f,
    json_roundtrip (VInt64 1700000000) = VFloat64 f /\ int64_of_float64 f = 1700000000.
Proof.
  assert (H : - 2 ^ 53 <= 1700000000 <= 2 ^ 53) by lia.
  split; [exact H|exact (claim_seconds_survive_json 1700000000 H)].
Defined.
